(** * HNG packaging backend: catalog and order endpoints

    A shallow embedding of [main.py]: the helper [serialize_doc] and the
    endpoints [seed_products], [list_products], [create_product],
    [create_order] and [test_database], over a model of the document
    store they talk to.  Python floats are IEEE binary64 numbers, taken
    here as Rocq's primitive floats. *)

From Stdlib Require Import ZArith NArith String Ascii List Bool Lia.
From Stdlib Require Import Floats.
From stdpp Require Import base option list gmap strings.

Set Warnings "-inexact-float,-register-all".
Local Open Scope string_scope.
Local Open Scope list_scope.
Local Open Scope Z_scope.

(** ** Values and documents *)

(** A BSON [ObjectId] holds bytes, kept as their count and the number
    they spell.  The store's identifiers are twelve bytes; the bson
    constructor can yield fewer from a string (see [ObjectId_of_str]). *)
Record ObjectId := BuildObjectId { oid_size : nat; oid_value : N }.

(** An identifier of twelve bytes. *)
Definition MkObjectId (n : N) : ObjectId := BuildObjectId 12 n.

(** Python values that occur in documents and request bodies.  A nested
    object keeps its fields as an ordered list of pairs. *)
Inductive value :=
| VNone
| VBool (b : bool)
| VInt (z : Z)
| VFloat (f : float)
| VStr (s : string)
| VOid (o : ObjectId)
| VList (l : list value)
| VDict (kvs : list (string * value)).

(** A Python [dict] with string keys: a document, a filter, a response. *)
Abbreviation dict := (gmap string value).

(** Python's truth value of a document or [None]: [not doc] holds for
    [None] and for the empty dict. *)
Definition doc_truthy (d : option dict) : bool :=
  match d with
  | None => false
  | Some m => negb (bool_decide (m = ∅))
  end.

(** Truth value of an optional string ([if category], [if os.getenv(..)]). *)
Definition str_truthy (s : option string) : bool :=
  match s with
  | None | Some EmptyString => false
  | Some _ => true
  end.

(** [dict.get(key, default)] *)
Definition dict_get (d : dict) (key : string) (default : value) : value :=
  match d !! key with
  | Some v => v
  | None => default
  end.

(** ** Floating point *)

Module PyFloat.

(** [float(n)] for a Python integer: the nearest double, ties to even;
    an integer beyond the range of doubles raises [OverflowError]
    (the [None] here). *)
Definition of_int (z : Z) : option float :=
  let f := SF2Prim (binary_normalize prec emax z 0 false) in
  if is_finite f then Some f else None.

(** Nearest integer to [m * 2^e], ties to even, for [m > 0]. *)
Definition round_half_even (m e : Z) : Z :=
  if 0 <=? e then m * 2 ^ e
  else
    let d := 2 ^ (- e) in
    let q := m / d in
    let r := m mod d in
    match 2 * r ?= d with
    | Lt => q
    | Gt => q + 1
    | Eq => if Z.even q then q else q + 1
    end.

(** [round(x, 2)] on a float, as CPython computes it: the exact value
    of [x] is rounded to two decimals (ties to even) and the decimal
    obtained is converted back to the nearest double; NaN, the
    infinities and the zeros round to themselves. *)
Definition round2 (x : float) : float :=
  match Prim2SF x with
  | S754_finite s m e =>
      match round_half_even (Z.pos m * 100) e with
      | Z.pos n =>
          SF2Prim (SFdiv prec emax (S754_finite s n 0) (S754_finite false 100 0))
      | _ => if s then neg_zero else zero
      end
  | _ => x
  end.

End PyFloat.

(** ** ObjectId: construction from a string, and [str] *)

Definition hex_digit (n : N) : ascii :=
  match String.get (N.to_nat n) "0123456789abcdef" with
  | Some c => c
  | None => "0"%char
  end.

Fixpoint hex_of (digits : nat) (n : N) : string :=
  match digits with
  | O => EmptyString
  | S k => hex_of k (n / 16) +:+ String (hex_digit (n mod 16)) EmptyString
  end.

(** [str(oid)]: two lowercase hexadecimal digits for each byte. *)
Definition oid_hex (o : ObjectId) : string := hex_of (2 * oid_size o) (oid_value o).

Definition hex_value (c : ascii) : option N :=
  let n := N_of_ascii c in
  if ((48 <=? n) && (n <=? 57))%N then Some (n - 48)%N
  else if ((97 <=? n) && (n <=? 102))%N then Some (n - 87)%N
  else if ((65 <=? n) && (n <=? 70))%N then Some (n - 55)%N
  else None.

(** ASCII whitespace, as [bytes.fromhex] skips it. *)
Definition is_space (c : ascii) : bool :=
  let n := N_of_ascii c in
  (((9 <=? n) && (n <=? 13)) || (n =? 32))%N.

(** [bytes.fromhex(s)]: pairs of hexadecimal digits, with whitespace
    allowed before each pair and at the end; [size] and [acc] are the
    bytes read so far.  Anything else raises (the [None] here). *)
Fixpoint fromhex (s : string) (size : nat) (acc : N) : option (nat * N) :=
  match s with
  | EmptyString => Some (size, acc)
  | String c rest =>
      if is_space c then fromhex rest size acc
      else
        match hex_value c, rest with
        | Some top, String c' rest' =>
            match hex_value c' with
            | Some bot => fromhex rest' (S size) (acc * 256 + top * 16 + bot)%N
            | None => None
            end
        | _, _ => None
        end
  end.

(** [ObjectId(s)] for a string, as bson builds it: [s] must have
    twenty-four characters and [bytes.fromhex] must accept it,
    otherwise bson raises [InvalidId] (the [None] here).  Whitespace
    between the pairs is skipped, so that the identifier can have fewer
    than twelve bytes.  A string with a character outside ASCII is
    refused either way, so that counting bytes for characters does not
    matter. *)
Definition ObjectId_of_str (s : string) : option ObjectId :=
  if Nat.eqb (String.length s) 24 then
    (fun r : nat * N => BuildObjectId r.1 r.2) <$> fromhex s 0%nat 0%N
  else None.

(** ** Exceptions and the effect monad *)

Inductive exn :=
| HTTPException (status_code : Z) (detail : string)
| InvalidId (s : string)          (* bson: not the spelling of an ObjectId *)
| TypeError (v : value)           (* [float(v)] on a value that is no number *)
| ValueError (s : string)         (* [float(s)] on a string that spells no number *)
| OverflowError                   (* int too large to convert to float *)
| KeyError (key : string)         (* [d[key]] on a dict without the key *)
| DatabaseUnavailable             (* the database module has no store *)
| StoreError (msg : string).      (* raised by the store's driver *)

Inductive outcome (A : Type) :=
| Return (a : A)
| Raise (e : exn).
Arguments Return {A} a.
Arguments Raise {A} e.

(** A computation over a state [S] that returns or raises; the state
    reached survives a raise, as a Python exception undoes nothing. *)
Definition M (S A : Type) : Type := S -> outcome A * S.

Definition ret {S A} (a : A) : M S A := fun s => (Return a, s).

Definition bind {S A B} (c : M S A) (k : A -> M S B) : M S B :=
  fun s =>
    match c s with
    | (Return a, s') => k a s'
    | (Raise e, s') => (Raise e, s')
    end.

Definition raise {S A} (e : exn) : M S A := fun s => (Raise e, s).

(** [try: body  except Exception as e: handler e] *)
Definition try_except {S A} (body : M S A) (handler : exn -> M S A) : M S A :=
  fun s =>
    match body s with
    | (Return a, s') => (Return a, s')
    | (Raise e, s') => handler e s'
    end.

(** A pure step that returns or raises. *)
Definition lift {S A} (o : outcome A) : M S A := fun s => (o, s).

Definition gets {S A} (f : S -> A) : M S A := fun s => (Return (f s), s).
Definition modify {S} (f : S -> S) : M S unit := fun s => (Return tt, f s).

Declare Scope py_scope.
Delimit Scope py_scope with py.
Notation "x <- c ;; k" := (bind c (fun x => k))
  (at level 100, c at next level, right associativity) : py_scope.
Notation "c ;;; k" := (bind c (fun _ => k))
  (at level 100, right associativity) : py_scope.
Local Open Scope py_scope.

(** [for x in xs: acc = body acc x], stopping at the first raise. *)
Fixpoint for_each {S A B} (body : A -> B -> M S A) (xs : list B) (acc : A) : M S A :=
  match xs with
  | [] => ret acc
  | x :: rest => acc' <- body acc x ;; for_each body rest acc'
  end.

(** [d[key]] *)
Definition dict_item {S} (d : dict) (key : string) : M S value :=
  match d !! key with
  | Some v => ret v
  | None => raise (KeyError key)
  end.

(** A local variable of type [L] beside the state [S]. *)
Definition on_state {S L A} (c : M S A) : M (S * L) A :=
  fun '(s, l) => let '(r, s') := c s in (r, (s', l)).

Definition with_local {S L A} (init : L) (c : M (S * L) A) : M S A :=
  fun s => let '(r, (s', _)) := c (s, init) in (r, s').

(** ** The document store and the process environment *)

(** What reading an attribute of an object can do. *)
Inductive attr (A : Type) :=
| NoAttr
| Attr (a : A)
| AttrRaises (e : exn).
Arguments NoAttr {A}.
Arguments Attr {A} a.
Arguments AttrRaises {A} e.

(** Modelled from the spec: the handle [db] of the [database] module,
    which is not in main.py.  It has the collections in storage order,
    the next identifier the store will assign, its [name] attribute, and
    [fault]: when set, the server cannot be reached and every call on a
    collection raises it.  A handle counts as true in [if db], as Python
    objects do unless their class says otherwise. *)
Record Database := MkDatabase {
  db_name : attr string;
  collections : gmap string (list dict);
  next_oid : N;
  fault : option exn
}.

(** Calls made on the store, in the order they were made. *)
Inductive call :=
| CountDocuments (coll : string) (filter : dict)
| FindOne (coll : string) (filter : dict)
| Find (coll : string) (filter : dict)
| InsertOne (coll : string) (d : dict)
| ListCollectionNames.

(** The state an endpoint runs in: the module global [db] ([None] when
    no store was configured), [os.environ], and the trace of store calls. *)
Record World := MkWorld {
  db : option Database;
  environ : gmap string string;
  calls : list call
}.

Definition log_call (c : call) (w : World) : World :=
  MkWorld (db w) (environ w) (calls w ++ [c]).

Definition set_db (d : Database) (w : World) : World :=
  MkWorld (Some d) (environ w) (calls w).

Definition collection (d : Database) (coll : string) : list dict :=
  default [] (collections d !! coll).

Definition add_document (coll : string) (x : dict) (d : Database) : Database :=
  MkDatabase (db_name d) (<[coll := collection d coll ++ [x]]> (collections d))
             (next_oid d + 1)%N (fault d).

(** Equality of two stored values, as an equality filter tests it. *)
Fixpoint value_eqb (a b : value) : bool :=
  match a, b with
  | VNone, VNone => true
  | VBool x, VBool y => Bool.eqb x y
  | VInt x, VInt y => (x =? y)%Z
  | VFloat x, VFloat y => (x =? y)%float
  | VStr x, VStr y => String.eqb x y
  | VOid x, VOid y =>
      Nat.eqb (oid_size x) (oid_size y) && (oid_value x =? oid_value y)%N
  | VList xs, VList ys =>
      (fix all2 (xs ys : list value) : bool :=
         match xs, ys with
         | [], [] => true
         | x :: xs', y :: ys' => value_eqb x y && all2 xs' ys'
         | _, _ => false
         end) xs ys
  | VDict xs, VDict ys =>
      (fix all2 (xs ys : list (string * value)) : bool :=
         match xs, ys with
         | [], [] => true
         | (k, x) :: xs', (k', y) :: ys' =>
             String.eqb k k' && value_eqb x y && all2 xs' ys'
         | _, _ => false
         end) xs ys
  | _, _ => false
  end.

(** A document matches a filter when it has every field of the filter
    with an equal value; the empty filter matches every document. *)
Definition field_matches (d : dict) (kv : string * value) : bool :=
  match d !! kv.1 with
  | Some v => value_eqb v kv.2
  | None => false
  end.

Definition matches (filter d : dict) : bool :=
  forallb (field_matches d) (map_to_list filter).

(** A call on a collection of the store the handle [d] stands for. *)
Definition store_call {A} (c : call) (op : Database -> A * Database) : M World A :=
  fun w =>
    match db w with
    | None => (Raise DatabaseUnavailable, w)
    | Some d =>
        let w' := log_call c w in
        match fault d with
        | Some e => (Raise e, w')
        | None => let '(a, d') := op d in (Return a, set_db d' w')
        end
    end.

(** [db[coll].count_documents(filter)] *)
Definition count_documents (coll : string) (filter : dict) : M World Z :=
  store_call (CountDocuments coll filter)
    (fun d => (Z.of_nat (length (List.filter (matches filter) (collection d coll))), d)).

(** [db[coll].find_one(filter)]: the first match in storage order, or [None]. *)
Definition find_one (coll : string) (filter : dict) : M World (option dict) :=
  store_call (FindOne coll filter)
    (fun d => (head (List.filter (matches filter) (collection d coll)), d)).

(** [db.list_collection_names()] *)
Definition list_collection_names : M World (list string) :=
  store_call ListCollectionNames
    (fun d => ((map_to_list (collections d)).*1, d)).

(** Modelled from the spec: [database.create_document], which is not in
    main.py.  It inserts [data] as a single new document of the
    collection; the store assigns the identifier, which is returned as a
    string.  Without a store it raises. *)
Definition create_document (collection_name : string) (data : dict) : M World string :=
  store_call (InsertOne collection_name data)
    (fun d =>
       let oid := MkObjectId (next_oid d) in
       (oid_hex oid, add_document collection_name (<["_id" := VOid oid]> data) d)).

(** Modelled from the spec: [database.get_documents], which is not in
    main.py.  It returns the documents of the collection that match the
    filter by equality of the fields, in storage order; the empty filter
    returns them all.  Without a store it raises. *)
Definition get_documents (collection_name : string) (filter : dict) : M World (list dict) :=
  store_call (Find collection_name filter)
    (fun d => (List.filter (matches filter) (collection d collection_name), d)).

(** [os.getenv(key)] *)
Definition getenv {L} (key : string) : M (World * L) (option string) :=
  gets (fun s => environ s.1 !! key).

(** ** Builtins of the Python runtime that are taken as given *)

(** [repr] of a value, [float] of a string and [str] of an exception
    are Python's own; nothing below depends on what they return. *)
Class Builtins := {
  py_repr : value -> string;
  float_of_str : string -> option float;
  exn_str : exn -> string
}.

Section Backend.
Context `{Builtins}.

(** [str(v)] *)
Definition py_str (v : value) : string :=
  match v with
  | VStr s => s
  | VOid o => oid_hex o
  | _ => py_repr v
  end.

(** [float(v)] *)
Definition py_float (v : value) : outcome float :=
  match v with
  | VFloat f => Return f
  | VInt z =>
      match PyFloat.of_int z with
      | Some f => Return f
      | None => Raise OverflowError
      end
  | VBool b => Return (if b then 1 else 0)%float
  | VStr s =>
      match float_of_str s with
      | Some f => Return f
      | None => Raise (ValueError s)
      end
  | _ => Raise (TypeError v)
  end.

(** [x * n] for a float [x] and an integer [n]: [n] is converted first. *)
Definition float_mul_int (x : float) (n : Z) : outcome float :=
  match PyFloat.of_int n with
  | Some y => Return (x * y)%float
  | None => Raise OverflowError
  end.

(** *** serialize_doc *)

Definition serialize_doc (doc : option dict) : option dict :=
  if negb (doc_truthy doc) then doc
  else
    match doc with
    | None => None
    | Some doc =>
        match doc !! "_id" with
        | Some oid => Some (<["id" := VStr (py_str oid)]> (delete "_id" doc))
        | None => Some doc
        end
    end.

(** *** POST /seed *)

Definition sample : list dict :=
  [ {[ "title" := VStr "Corrugated Boxes - Small";
       "description" := VStr "Durable small corrugated boxes for light shipments.";
       "price" := VFloat 12.99;
       "category" := VStr "Boxes";
       "image" := VStr "https://images.unsplash.com/photo-1585166276991-9a6f4018f3a0";
       "in_stock" := VBool true ]};
    {[ "title" := VStr "Bubble Wrap Roll";
       "description" := VStr "High-quality bubble wrap for fragile items.";
       "price" := VFloat 19.5;
       "category" := VStr "Protective";
       "image" := VStr "https://images.unsplash.com/photo-1585386959984-a4155223168f";
       "in_stock" := VBool true ]};
    {[ "title" := VStr "Packing Tape - Heavy Duty";
       "description" := VStr "Strong adhesive packing tape for secure sealing.";
       "price" := VFloat 4.75;
       "category" := VStr "Tape";
       "image" := VStr "https://images.unsplash.com/photo-1516637090014-cb1ab0d08fc7";
       "in_stock" := VBool true ]} ].

Definition seed_products : M World dict :=
  try_except
    (d <- gets db ;;
     count <- match d with
              | Some _ => count_documents "product" ∅
              | None => ret 0
              end ;;
     if 0 <? count then
       ret {[ "message" := VStr "Products already seeded"; "count" := VInt count ]}
     else
       for_each (fun _ p => create_document "product" p ;;; ret tt) sample tt ;;;
       ret {[ "message" := VStr "Seeded sample products";
              "count" := VInt (Z.of_nat (length sample)) ]})
    (fun e => raise (HTTPException 500 (exn_str e))).

(** *** GET /products and POST /products *)

Definition list_products (category : option string) : M World (list (option dict)) :=
  try_except
    (let query : dict :=
       match category with
       | Some c => if str_truthy category then {[ "category" := VStr c ]} else ∅
       | None => ∅
       end in
     docs <- get_documents "product" query ;;
     ret (map (fun d => serialize_doc (Some d)) docs))
    (fun e => raise (HTTPException 500 (exn_str e))).

(** [product] is the validated request body, as a dict of its fields. *)
Definition create_product (product : dict) : M World dict :=
  try_except
    (new_id <- create_document "product" product ;;
     ret {[ "id" := VStr new_id ]})
    (fun e => raise (HTTPException 500 (exn_str e))).

(** *** POST /orders *)

(** Modelled from the spec: the [OrderItem] schema, which is not in
    main.py: a product reference and a quantity. *)
Record OrderItem := MkOrderItem {
  product_id : string;
  quantity : Z
}.

(** Modelled from the spec: the [Order] schema, which is not in
    main.py.  The request body has the line items, and the other fields
    of the schema (buyer data, possibly a client's [total_amount]) as
    they come, passed through untouched. *)
Record CreateOrderRequest := MkCreateOrderRequest {
  fields : dict;
  items : list OrderItem
}.

Definition item_dump (item : OrderItem) : value :=
  VDict [("product_id", VStr (product_id item)); ("quantity", VInt (quantity item))].

(** [order.model_dump()] *)
Definition model_dump (order : CreateOrderRequest) : dict :=
  <["items" := VList (map item_dump (items order))]> (fields order).

(** The body of the loop over the items. *)
Definition add_item (total : float) (item : OrderItem) : M World float :=
  d <- gets db ;;
  prod <- match d with
          | Some _ =>
              match ObjectId_of_str (product_id item) with
              | Some oid => find_one "product" {[ "_id" := VOid oid ]}
              | None => raise (InvalidId (product_id item))
              end
          | None => ret None
          end ;;
  match prod with
  | Some p =>
      if negb (doc_truthy prod) then
        raise (HTTPException 404 ("Product not found: " +:+ product_id item))
      else
        price <- lift (py_float (dict_get p "price" (VInt 0))) ;;
        amount <- lift (float_mul_int price (quantity item)) ;;
        ret (total + amount)%float
  | None => raise (HTTPException 404 ("Product not found: " +:+ product_id item))
  end.

Definition create_order (order : CreateOrderRequest) : M World dict :=
  try_except
    (total <- for_each add_item (items order) 0%float ;;
     let order_dict := model_dump order in
     let order_dict := <["total_amount" := VFloat (PyFloat.round2 total)]> order_dict in
     new_id <- create_document "order" order_dict ;;
     total_amount <- dict_item order_dict "total_amount" ;;
     ret {[ "id" := VStr new_id; "total" := total_amount ]})
    (fun e =>
       match e with
       | HTTPException _ _ => raise e
       | _ => raise (HTTPException 500 (exn_str e))
       end).

(** *** GET /test *)

(** [response[key] = v] on the local dict [response]. *)
Definition set_item (key : string) (v : value) : M (World * dict) unit :=
  modify (fun '(w, response) => (w, <[key := v]> response)).

(** A byte that continues a character of a UTF-8 string. *)
Definition is_continuation (c : ascii) : bool :=
  let n := N_of_ascii c in ((128 <=? n) && (n <? 192))%N.

(** The first [n] characters of a string kept as UTF-8 bytes. *)
Fixpoint take_chars (n : nat) (s : string) : string :=
  match s with
  | EmptyString => EmptyString
  | String c rest =>
      if is_continuation c then String c (take_chars n rest)
      else
        match n with
        | O => EmptyString
        | S k => String c (take_chars k rest)
        end
  end.

(** [s[:50]] *)
Definition prefix50 (s : string) : string := take_chars 50 s.

Definition test_database : M World dict :=
  with_local
    ({[ "backend" := VStr "✅ Running";
        "database" := VStr "❌ Not Available";
        "database_url" := VNone;
        "database_name" := VNone;
        "connection_status" := VStr "Not Connected";
        "collections" := VList [] ]} : dict)
    (try_except
       (d <- on_state (gets db) ;;
        match d with
        | Some d =>
            set_item "database" (VStr "✅ Available") ;;;
            set_item "database_url" (VStr "✅ Configured") ;;;
            name <- match db_name d with
                    | Attr n => ret n
                    | NoAttr => ret "✅ Connected"
                    | AttrRaises e => raise e
                    end ;;
            set_item "database_name" (VStr name) ;;;
            set_item "connection_status" (VStr "Connected") ;;;
            try_except
              (collections <- on_state list_collection_names ;;
               set_item "collections" (VList (map VStr (take 10 collections))) ;;;
               set_item "database" (VStr "✅ Connected & Working"))
              (fun e =>
                 set_item "database"
                   (VStr ("⚠️  Connected but Error: " +:+ prefix50 (exn_str e))))
        | None => set_item "database" (VStr "⚠️  Available but not initialized")
        end)
       (fun e => set_item "database" (VStr ("❌ Error: " +:+ prefix50 (exn_str e)))) ;;;
     url <- getenv "DATABASE_URL" ;;
     set_item "database_url" (VStr (if str_truthy url then "✅ Set" else "❌ Not Set")) ;;;
     name <- getenv "DATABASE_NAME" ;;
     set_item "database_name" (VStr (if str_truthy name then "✅ Set" else "❌ Not Set")) ;;;
     gets snd).

End Backend.

(** ** Reading an order against the store *)

Definition log_calls (cs : list call) (w : World) : World :=
  MkWorld (db w) (environ w) (calls w ++ cs).

(** The product an identifier resolves to. *)
Definition lookup_product (d : Database) (oid : ObjectId) : option dict :=
  head (List.filter (matches {[ "_id" := VOid oid ]}) (collection d "product")).

Definition find_product (oid : ObjectId) : call :=
  FindOne "product" {[ "_id" := VOid oid ]}.

Section OrderSpec.
Context `{Builtins}.

(** The lookups that a pass over [items] makes on the store. *)
Definition lookups (items : list OrderItem) : list call :=
  omap (fun item => find_product <$> ObjectId_of_str (product_id item)) items.

(** [line] is the price and the quantity of [item], as floats: the
    price of the product the item refers to, as the store has it. *)
Definition item_line (d : Database) (item : OrderItem) (line : float * float) : Prop :=
  exists (oid : ObjectId) (p : dict),
    ObjectId_of_str (product_id item) = Some oid /\
    lookup_product d oid = Some p /\
    py_float (dict_get p "price" (VInt 0)) = Return line.1 /\
    PyFloat.of_int (quantity item) = Some line.2.

(** The total of an order in the words of the specification: the sum
    over the items of price times quantity, rounded to two decimals. *)
Definition order_total (lines : list (float * float)) : float :=
  PyFloat.round2 (fold_left (fun acc line => acc + line.1 * line.2)%float lines 0%float).

(** What [create_order] stores for [order] with the total [t]. *)
Definition order_document (order : CreateOrderRequest) (t : float) : dict :=
  <["total_amount" := VFloat t]> (model_dump order).

(** What [create_order] does with an exception of its [try] block. *)
Definition order_handler (e : exn) : exn :=
  match e with
  | HTTPException _ _ => e
  | _ => HTTPException 500 (exn_str e)
  end.

End OrderSpec.

(** ** Seeding and diagnostics *)

(** The store answers and already holds products. *)
Definition seeded (w : World) : Prop :=
  exists d : Database,
    db w = Some d /\ fault d = None /\ collection d "product" <> [].

(** What [seed_products] answers when it inserts nothing. *)
Definition already_seeded (count : Z) : dict :=
  {[ "message" := VStr "Products already seeded"; "count" := VInt count ]}.

Section Diagnostics.
Context `{Builtins}.

(** The ["database"] entry of the diagnostic report, case by case. *)
Definition database_status (w : World) : string :=
  match db w with
  | None => "⚠️  Available but not initialized"
  | Some d =>
      match db_name d with
      | AttrRaises e => "❌ Error: " +:+ prefix50 (exn_str e)
      | _ =>
          match fault d with
          | Some e => "⚠️  Connected but Error: " +:+ prefix50 (exn_str e)
          | None => "✅ Connected & Working"
          end
      end
  end.

End Diagnostics.

(** ** Filters by category *)

(** The filter [{"category": c}] on one document. *)
Definition has_category (c : string) (d : dict) : bool :=
  match d !! "category" with
  | Some (VStr s) => String.eqb s c
  | _ => false
  end.

(** ** Concrete runs *)

(** A runtime to run examples with.  Its messages stand in for
    Python's; the runs below hold no price that is a string. *)
Definition runtime : Builtins := {|
  py_repr := fun _ => "<value>";
  float_of_str := fun _ => None;
  exn_str := fun e =>
    match e with
    | HTTPException _ detail => detail
    | InvalidId s =>
        "'" +:+ s +:+
        "' is not a valid ObjectId, it must be a 12-byte input or a 24-character hex string"
    | TypeError _ => "float() argument must be a string or a real number"
    | ValueError s => "could not convert string to float: " +:+ s
    | OverflowError => "int too large to convert to float"
    | KeyError key => key
    | DatabaseUnavailable => "Database not available"
    | StoreError msg => msg
    end
|}.

Definition empty_store : Database := MkDatabase (Attr "shop") ∅ 1 None.

Definition fresh_world : World := MkWorld (Some empty_store) ∅ [].

(** The world after a first call of [seed_products]. *)
Definition seeded_world : World :=
  Eval vm_compute in (@seed_products runtime fresh_world).2.

Definition seeded_store : Database :=
  Eval vm_compute in default empty_store (db seeded_world).

(** A store with one product that has no price field. *)
Definition unpriced_world : World :=
  MkWorld (Some (MkDatabase (Attr "shop")
                   {[ "product" := [ ({[ "_id" := VOid (MkObjectId 7);
                                         "title" := VStr "Loose fill" ]} : dict) ] ]}
                   8 None))
          ∅ [].

Definition order_of (items : list OrderItem) : CreateOrderRequest :=
  MkCreateOrderRequest {[ "customer_name" := VStr "Ada" ]} items.

Definition two_items : list OrderItem :=
  [MkOrderItem "000000000000000000000001" 2; MkOrderItem "000000000000000000000002" 1].

Definition missing_second : list OrderItem :=
  [MkOrderItem "000000000000000000000001" 2;
   MkOrderItem "000000000000000000000009" 1;
   MkOrderItem "000000000000000000000002" 1].

(** What a run returned, or [default] when it raised. *)
Definition returned {A} (default : A) (run : outcome A * World) : A :=
  match run.1 with
  | Return a => a
  | Raise _ => default
  end.

(** ** Further readings of the world *)

(** The collection names the diagnostic report can show: the first ten
    of a store that answers and whose name can be read, none otherwise. *)
Definition listed_collections (w : World) : list string :=
  match db w with
  | Some d =>
      match db_name d, fault d with
      | AttrRaises _, _ => []
      | _, Some _ => []
      | _, None => take 10 (map_to_list (collections d)).*1
      end
  | None => []
  end.

(** The calls [test_database] makes on the store. *)
Definition diagnostic_calls (w : World) : list call :=
  match db w with
  | Some d =>
      match db_name d with
      | AttrRaises _ => []
      | _ => [ListCollectionNames]
      end
  | None => []
  end.

(** Whether the report says ["Connected"]. *)
Definition reports_connected (w : World) : bool :=
  match db w with
  | Some d =>
      match db_name d with
      | AttrRaises _ => false
      | _ => true
      end
  | None => false
  end.

(** ["✅ Set"] or ["❌ Not Set"], for a variable of the environment. *)
Definition env_flag (w : World) (key : string) : value :=
  VStr (if str_truthy (environ w !! key) then "✅ Set" else "❌ Not Set").

(** An integer that BSON, and so the store, can hold: sixty-four bits,
    signed. *)
Definition fits_int64 (z : Z) : Prop := - 2 ^ 63 <= z < 2 ^ 63.

(** ** Further concrete inputs *)

(** A world in which no store was configured. *)
Definition no_store_world : World := MkWorld None ∅ [].

(** A product as a client sends it. *)
Definition kraft_paper : dict :=
  {[ "title" := VStr "Kraft paper"; "price" := VFloat 3.5; "category" := VStr "Wrap" ]}.



(** * Properties *)

(** ** Rounding and identifiers, on examples *)

Example round2_ex1 : PyFloat.round2 45.480000000000004%float = 45.48%float.
Proof. vm_compute. reflexivity. Qed.

Example round2_ex2 : PyFloat.round2 2.675%float = 2.67%float.
Proof. vm_compute. reflexivity. Qed.

Example round2_ex3 : PyFloat.round2 (-0.125)%float = (-0.12)%float.
Proof. vm_compute. reflexivity. Qed.

Example round2_ex4 : PyFloat.round2 1e300%float = 1e300%float.
Proof. vm_compute. reflexivity. Qed.

Example sum_ex : (0 + 12.99 * 2 + 19.5 * 1)%float = 45.480000000000004%float.
Proof. vm_compute. reflexivity. Qed.

Example oid_roundtrip :
  oid_hex <$> ObjectId_of_str "65A1b2c3d4e5f60718293a4b" = Some "65a1b2c3d4e5f60718293a4b".
Proof. vm_compute. reflexivity. Qed.

Example oid_invalid : ObjectId_of_str "abc" = None.
Proof. reflexivity. Qed.

(** Whitespace between the pairs is skipped: twenty-four characters
    can spell fewer than twelve bytes. *)
Example oid_blanks :
  ObjectId_of_str "00 00 00 00 00 00 00 00 " = Some (BuildObjectId 8 0).
Proof. reflexivity. Qed.

Example oid_split_pair : ObjectId_of_str "0 000000000000000000000 " = None.
Proof. reflexivity. Qed.

Example prefix50_counts_characters :
  String.length (prefix50 "⚠⚠⚠⚠⚠⚠⚠⚠⚠⚠⚠⚠⚠⚠⚠⚠⚠⚠⚠⚠⚠⚠⚠⚠⚠⚠⚠⚠⚠⚠⚠⚠⚠⚠⚠⚠⚠⚠⚠⚠⚠⚠⚠⚠⚠⚠⚠⚠⚠⚠⚠⚠⚠⚠⚠") = 150%nat.
Proof. reflexivity. Qed.

(** ** Running store calls *)

Lemma store_call_run {A} (c : call) (op : Database -> A * Database) (w : World) (d : Database) :
  db w = Some d -> fault d = None ->
  store_call c op w = (Return (op d).1, set_db (op d).2 (log_call c w)).
Proof.
  intros Hdb Hf. unfold store_call. rewrite Hdb, Hf. by destruct (op d).
Qed.

Lemma store_call_fault {A} (c : call) (op : Database -> A * Database) (w : World) (d : Database) (e : exn) :
  db w = Some d -> fault d = Some e ->
  store_call c op w = (Raise e, log_call c w).
Proof. intros Hdb Hf. unfold store_call. by rewrite Hdb, Hf. Qed.

Lemma store_call_absent {A} (c : call) (op : Database -> A * Database) (w : World) :
  db w = None -> store_call c op w = (Raise DatabaseUnavailable, w).
Proof. intros Hdb. unfold store_call. by rewrite Hdb. Qed.

(** A call that reads leaves the world as it was, but for the trace. *)
Lemma set_db_same (c : call) (w : World) (d : Database) :
  db w = Some d -> set_db d (log_call c w) = log_call c w.
Proof. destruct w as [o env cs]; simpl. intros ->. reflexivity. Qed.

Lemma db_log_call (c : call) (w : World) : db (log_call c w) = db w.
Proof. reflexivity. Qed.

Lemma db_set_db (d : Database) (w : World) : db (set_db d w) = Some d.
Proof. reflexivity. Qed.

(** ** Filters *)

Lemma has_category_spec (c : string) (d : dict) :
  has_category c d = true <-> d !! "category" = Some (VStr c).
Proof.
  unfold has_category. destruct (d !! "category") as [[]|]; split; try discriminate.
  - intros E. apply String.eqb_eq in E. by subst.
  - intros [= ->]. apply String.eqb_refl.
Qed.

Lemma matches_empty (d : dict) : matches ∅ d = true.
Proof. unfold matches. by rewrite map_to_list_empty. Qed.

Lemma matches_singleton (k : string) (v : value) (d : dict) :
  matches {[ k := v ]} d = field_matches d (k, v).
Proof. unfold matches. rewrite map_to_list_singleton. simpl. apply andb_true_r. Qed.

Lemma matches_category (c : string) (d : dict) :
  matches {[ "category" := VStr c ]} d = has_category c d.
Proof.
  rewrite matches_singleton. unfold field_matches, has_category. simpl.
  by destruct (d !! "category") as [[]|].
Qed.

Lemma filter_all {A} (l : list A) : List.filter (fun _ => true) l = l.
Proof. induction l as [|x l IH]; simpl; [done | by rewrite IH]. Qed.

Lemma head_filter_true {A} (f : A -> bool) (l : list A) (x : A) :
  head (List.filter f l) = Some x -> f x = true.
Proof.
  induction l as [|y l IH]; simpl; [done |].
  destruct (f y) eqn:E; simpl; [by intros [= <-] | done].
Qed.

Section Properties.
Context `{Builtins}.

(** *** serialize_doc *)

Lemma serialize_doc_None : serialize_doc None = None.
Proof. reflexivity. Qed.

Lemma serialize_doc_empty : serialize_doc (Some ∅) = Some ∅.
Proof. reflexivity. Qed.

Lemma serialize_doc_Some (d : dict) :
  serialize_doc (Some d) =
  Some match d !! "_id" with
       | Some oid => <["id" := VStr (py_str oid)]> (delete "_id" d)
       | None => d
       end.
Proof.
  unfold serialize_doc, doc_truthy. case_bool_decide as E; simpl.
  - subst d. by rewrite lookup_empty.
  - by destruct (d !! "_id").
Qed.

Lemma serialize_doc_lookup (d : dict) :
  exists r : dict,
    serialize_doc (Some d) = Some r /\
    r !! "_id" = None /\
    (forall k : string, k <> "_id" -> k <> "id" -> r !! k = d !! k) /\
    (forall v : value, d !! "_id" = Some v -> r !! "id" = Some (VStr (py_str v))).
Proof.
  rewrite serialize_doc_Some. eexists; split; [reflexivity |].
  destruct (d !! "_id") as [oid|] eqn:E.
  - split; [| split].
    + rewrite lookup_insert_ne by done. apply lookup_delete_eq.
    + intros k Hk1 Hk2.
      rewrite lookup_insert_ne by done. by rewrite lookup_delete_ne.
    + intros v [= <-]. apply lookup_insert_eq.
  - split; [done |]. split; [done | discriminate].
Qed.

(** C10 (as amended): [serialize_doc] returns [None] and the empty
    document unchanged, and a document without ["_id"] unchanged; on
    any document it removes ["_id"], leaves every key other than
    ["_id"] and ["id"] as it was, and when ["_id"] was present sets
    ["id"] to its string, over whatever ["id"] held before. *)
Theorem serialize_doc_frame (d : dict) :
  serialize_doc None = None /\
  serialize_doc (Some ∅) = Some ∅ /\
  (d !! "_id" = None -> serialize_doc (Some d) = Some d) /\
  exists r : dict,
    serialize_doc (Some d) = Some r /\
    r !! "_id" = None /\
    (forall k : string, k <> "_id" -> k <> "id" -> r !! k = d !! k) /\
    (forall v : value, d !! "_id" = Some v -> r !! "id" = Some (VStr (py_str v))).
Proof.
  split; [reflexivity |]. split; [reflexivity |]. split.
  - rewrite serialize_doc_Some. by intros ->.
  - apply serialize_doc_lookup.
Qed.

(** *** GET /products *)

Lemma list_products_run (category : option string) (w : World) (d : Database) :
  db w = Some d -> fault d = None ->
  let query : dict :=
    match category with
    | Some c => if str_truthy category then {[ "category" := VStr c ]} else ∅
    | None => ∅
    end in
  list_products category w =
  (Return (map (fun x => serialize_doc (Some x))
             (List.filter (matches query) (collection d "product"))),
   log_call (Find "product" query) w).
Proof.
  intros Hdb Hf query. unfold list_products, try_except, bind, get_documents.
  fold query. rewrite (store_call_run _ _ w d Hdb Hf). simpl.
  by rewrite set_db_same.
Qed.

(** C3 (as amended): on a store that answers, [list_products] with a
    non-empty category returns, serialized and in storage order,
    exactly the products whose category field is that string
    (case-sensitive); with no category, or with the empty string, it
    returns all products. *)
Theorem list_products_filter (category : option string) (w : World) (d : Database) :
  db w = Some d -> fault d = None ->
  exists w' : World,
    list_products category w =
    (Return (map (fun x => serialize_doc (Some x))
               match category with
               | Some (String a s) =>
                   List.filter (has_category (String a s)) (collection d "product")
               | _ => collection d "product"
               end), w') /\
    db w' = db w /\
    forall (c : string) (x : dict),
      has_category c x = true <-> x !! "category" = Some (VStr c).
Proof.
  intros Hdb Hf. rewrite (list_products_run category w d Hdb Hf).
  eexists. split; [| split; [| apply has_category_spec]].
  - apply (f_equal2 pair); [| reflexivity]. f_equal. f_equal.
    destruct category as [[|a s]|]; simpl.
    + erewrite filter_ext; [apply filter_all |]. intros x. apply matches_empty.
    + apply filter_ext. intros x. apply matches_category.
    + erewrite filter_ext; [apply filter_all |]. intros x. apply matches_empty.
  - reflexivity.
Qed.

(** C7: every document that [list_products] returns comes from a
    stored product, has no ["_id"] key, and carries the string of the
    stored ["_id"] under ["id"]. *)
Theorem list_products_hides_id (category : option string) (w w' : World)
    (docs : list (option dict)) :
  list_products category w = (Return docs, w') ->
  exists stored : list dict,
    Forall2 (fun (s : dict) (r : option dict) =>
               exists m : dict,
                 r = Some m /\ m !! "_id" = None /\
                 forall v : value, s !! "_id" = Some v ->
                                   m !! "id" = Some (VStr (py_str v)))
            stored docs /\
    forall d : Database, db w = Some d ->
      exists query : dict,
        stored = List.filter (matches query) (collection d "product").
Proof.
  intros Hrun. unfold list_products, try_except, bind, get_documents in Hrun.
  set (query := match category with
                | Some c => if str_truthy category then {[ "category" := VStr c ]} else ∅
                | None => ∅
                end : dict) in Hrun.
  destruct (db w) as [d|] eqn:Hdb.
  - destruct (fault d) as [e|] eqn:Hf.
    + rewrite (store_call_fault _ _ w d e Hdb Hf) in Hrun. discriminate.
    + rewrite (store_call_run _ _ w d Hdb Hf) in Hrun. simpl in Hrun.
      injection Hrun as <- _.
      exists (List.filter (matches query) (collection d "product")). split.
      * induction (List.filter (matches query) (collection d "product")) as [|s l IH];
          simpl; constructor; [| exact IH].
        destruct (serialize_doc_lookup s) as (r & Hr & Hid & _ & Hstr).
        exists r. by rewrite Hr.
      * intros d' [= <-]. by exists query.
  - rewrite (store_call_absent _ _ w Hdb) in Hrun. discriminate.
Qed.

End Properties.

Section OrderProperties.
Context `{Builtins}.

Lemma log_calls_log_call (c : call) (cs : list call) (w : World) :
  log_call c (log_calls cs w) = log_calls (cs ++ [c]) w.
Proof. unfold log_call, log_calls. simpl. by rewrite app_assoc. Qed.

Lemma log_calls_nil (w : World) : log_calls [] w = w.
Proof. destruct w. unfold log_calls. simpl. by rewrite app_nil_r. Qed.

Lemma log_calls_cons (c : call) (cs : list call) (w : World) :
  log_calls cs (log_call c w) = log_calls (c :: cs) w.
Proof. unfold log_call, log_calls. simpl. by rewrite <- app_assoc. Qed.

Lemma lookup_product_truthy (d : Database) (oid : ObjectId) (p : dict) :
  lookup_product d oid = Some p -> doc_truthy (Some p) = true.
Proof.
  intros Hp. apply head_filter_true in Hp. rewrite matches_singleton in Hp.
  unfold field_matches in Hp. simpl in Hp. unfold doc_truthy.
  case_bool_decide as E; [| done]. subst p. by rewrite lookup_empty in Hp.
Qed.

(** *** One pass of the loop body *)

Lemma add_item_absent (total : float) (item : OrderItem) (w : World) :
  db w = None ->
  add_item total item w =
  (Raise (HTTPException 404 ("Product not found: " +:+ product_id item)), w).
Proof. intros Hdb. unfold add_item, bind, gets, ret. by rewrite Hdb. Qed.

Lemma add_item_invalid (total : float) (item : OrderItem) (w : World) (d : Database) :
  db w = Some d -> ObjectId_of_str (product_id item) = None ->
  add_item total item w = (Raise (InvalidId (product_id item)), w).
Proof. intros Hdb Ho. unfold add_item, bind, gets, raise. by rewrite Hdb, Ho. Qed.

Lemma add_item_fault (total : float) (item : OrderItem) (w : World) (d : Database)
    (oid : ObjectId) (e : exn) :
  db w = Some d -> fault d = Some e -> ObjectId_of_str (product_id item) = Some oid ->
  add_item total item w = (Raise e, log_call (find_product oid) w).
Proof.
  intros Hdb Hf Ho. unfold add_item, bind, gets, find_one. rewrite Hdb, Ho.
  by rewrite (store_call_fault _ _ w d e Hdb Hf).
Qed.

Lemma add_item_run (total : float) (item : OrderItem) (w : World) (d : Database)
    (oid : ObjectId) :
  db w = Some d -> fault d = None -> ObjectId_of_str (product_id item) = Some oid ->
  add_item total item w =
  (match lookup_product d oid with
   | Some p =>
       match py_float (dict_get p "price" (VInt 0)) with
       | Return price =>
           match float_mul_int price (quantity item) with
           | Return amount => Return (total + amount)%float
           | Raise e => Raise e
           end
       | Raise e => Raise e
       end
   | None => Raise (HTTPException 404 ("Product not found: " +:+ product_id item))
   end, log_call (find_product oid) w).
Proof.
  intros Hdb Hf Ho. unfold add_item, bind, gets, find_one. rewrite Hdb, Ho.
  rewrite (store_call_run _ _ w d Hdb Hf). simpl. rewrite (set_db_same _ w d Hdb).
  fold (lookup_product d oid).
  destruct (lookup_product d oid) as [p|] eqn:Hp; [| reflexivity].
  rewrite (lookup_product_truthy d oid p Hp). simpl. unfold lift.
  destruct (py_float _) as [price|e]; [| reflexivity].
  by destruct (float_mul_int _ _).
Qed.

Lemma add_item_line (total : float) (item : OrderItem) (w : World) (d : Database)
    (line : float * float) (oid : ObjectId) :
  db w = Some d -> fault d = None -> item_line d item line ->
  ObjectId_of_str (product_id item) = Some oid ->
  add_item total item w =
  (Return (total + line.1 * line.2)%float, log_call (find_product oid) w).
Proof.
  intros Hdb Hf (oid' & p & Ho & Hp & Hprice & Hq) Ho'.
  assert (oid' = oid) as -> by congruence.
  rewrite (add_item_run total item w d oid Hdb Hf Ho), Hp, Hprice.
  unfold float_mul_int. by rewrite Hq.
Qed.

(** *** The loop *)

Lemma for_each_resolved (items : list OrderItem) (lines : list (float * float))
    (total : float) (w : World) (d : Database) :
  db w = Some d -> fault d = None -> Forall2 (item_line d) items lines ->
  for_each add_item items total w =
  (Return (fold_left (fun acc line => acc + line.1 * line.2)%float lines total),
   log_calls (lookups items) w).
Proof.
  intros Hdb Hf Hall. revert total w Hdb.
  induction Hall as [|item line items lines Hline Hall IH]; intros total w Hdb.
  - simpl. unfold ret. by rewrite log_calls_nil.
  - destruct Hline as (oid & p & Ho & Hrest).
    assert (item_line d item line) as Hline by (exists oid, p; by split).
    simpl. unfold bind.
    rewrite (add_item_line total item w d line oid Hdb Hf Hline Ho).
    rewrite IH by done. unfold lookups. simpl. rewrite Ho. simpl.
    by rewrite log_calls_cons.
Qed.

Lemma for_each_returns (items : list OrderItem) (total total' : float)
    (w w' : World) (d : Database) :
  db w = Some d ->
  for_each add_item items total w = (Return total', w') ->
  exists lines : list (float * float),
    Forall2 (item_line d) items lines /\
    total' = fold_left (fun acc line => acc + line.1 * line.2)%float lines total /\
    w' = log_calls (lookups items) w.
Proof.
  revert total w. induction items as [|item items IH]; intros total w Hdb Hrun.
  - simpl in Hrun. injection Hrun as <- <-. exists []. split; [constructor |].
    split; [done |]. by rewrite log_calls_nil.
  - simpl in Hrun. unfold bind in Hrun.
    destruct (ObjectId_of_str (product_id item)) as [oid|] eqn:Ho.
    2: { by rewrite (add_item_invalid total item w d Hdb Ho) in Hrun. }
    destruct (fault d) as [e|] eqn:Hf.
    { by rewrite (add_item_fault total item w d oid e Hdb Hf Ho) in Hrun. }
    rewrite (add_item_run total item w d oid Hdb Hf Ho) in Hrun.
    destruct (lookup_product d oid) as [p|] eqn:Hp; [| done].
    destruct (py_float (dict_get p "price" (VInt 0))) as [price|e] eqn:Hprice; [| done].
    unfold float_mul_int in Hrun.
    destruct (PyFloat.of_int (quantity item)) as [q|] eqn:Hq; [| done].
    apply IH in Hrun as (lines & Hall & -> & ->); [| done].
    exists ((price, q) :: lines). split; [| split].
    + constructor; [| done]. by exists oid, p.
    + reflexivity.
    + unfold lookups. simpl. rewrite Ho. simpl. by rewrite log_calls_cons.
Qed.

End OrderProperties.

Section CreateOrder.
Context `{Builtins}.

Lemma create_order_unfold (order : CreateOrderRequest) (w : World) :
  create_order order w =
  match for_each add_item (items order) 0%float w with
  | (Return total, w1) =>
      let t := PyFloat.round2 total in
      match create_document "order" (order_document order t) w1 with
      | (Return new_id, w2) => (Return {[ "id" := VStr new_id; "total" := VFloat t ]}, w2)
      | (Raise e, w2) => (Raise (order_handler e), w2)
      end
  | (Raise e, w1) => (Raise (order_handler e), w1)
  end.
Proof.
  unfold create_order, try_except, bind, order_document.
  destruct (for_each add_item (items order) 0%float w) as [[total|e] w1].
  - destruct (create_document _ _ w1) as [[new_id|e] w2].
    + unfold dict_item. rewrite lookup_insert_eq. reflexivity.
    + by destruct e.
  - by destruct e.
Qed.

Lemma collection_add_document (coll : string) (x : dict) (d : Database) :
  collection (add_document coll x d) coll = collection d coll ++ [x].
Proof. unfold add_document, collection. simpl. by rewrite lookup_insert_eq. Qed.

Lemma collection_add_document_ne (coll coll' : string) (x : dict) (d : Database) :
  coll <> coll' -> collection (add_document coll x d) coll' = collection d coll'.
Proof. intros Hne. unfold add_document, collection. simpl. by rewrite lookup_insert_ne. Qed.

Lemma create_document_run (coll : string) (data : dict) (w : World) (d : Database) :
  db w = Some d -> fault d = None ->
  create_document coll data w =
  (Return (oid_hex (MkObjectId (next_oid d))),
   set_db (add_document coll (<["_id" := VOid (MkObjectId (next_oid d))]> data) d)
          (log_call (InsertOne coll data) w)).
Proof. intros Hdb Hf. unfold create_document. by rewrite (store_call_run _ _ w d Hdb Hf). Qed.

(** A [total_amount] sent by the client does not reach the stored document. *)
Lemma order_document_client_total (order : CreateOrderRequest) (v : value) (t : float) :
  order_document (MkCreateOrderRequest (<["total_amount" := v]> (fields order)) (items order)) t =
  order_document order t.
Proof.
  unfold order_document, model_dump. simpl.
  rewrite (insert_insert_ne _ "items" "total_amount") by done.
  by rewrite insert_insert_eq.
Qed.

Lemma create_order_client_total (order : CreateOrderRequest) (v : value) (w : World) :
  create_order (MkCreateOrderRequest (<["total_amount" := v]> (fields order)) (items order)) w =
  create_order order w.
Proof.
  rewrite !create_order_unfold. simpl.
  destruct (for_each add_item (items order) 0%float w) as [[total|e] w1]; [| done].
  simpl. by rewrite order_document_client_total.
Qed.

Lemma for_each_absent (items : list OrderItem) (total total' : float) (w w' : World) :
  db w = None ->
  for_each add_item items total w = (Return total', w') -> items = [] /\ w' = w.
Proof.
  intros Hdb. destruct items as [|item items]; simpl.
  - by intros [= _ <-].
  - unfold bind. by rewrite (add_item_absent total item w Hdb).
Qed.

(** C1: when [create_order] succeeds, every item resolved to a product
    of the store, and the [total_amount] of the order document that
    was added to the store, like the total returned, is the sum over
    the items of price times quantity rounded to two decimals; the
    other fields are those of the request, and a [total_amount] in the
    request changes nothing. *)
Theorem create_order_total (order : CreateOrderRequest) (w w' : World) (resp : dict) :
  create_order order w = (Return resp, w') ->
  exists (d d' : Database) (lines : list (float * float)) (persisted : dict),
    db w = Some d /\
    Forall2 (item_line d) (items order) lines /\
    resp !! "total" = Some (VFloat (order_total lines)) /\
    db w' = Some d' /\
    collection d' "order" = collection d "order" ++ [persisted] /\
    persisted !! "total_amount" = Some (VFloat (order_total lines)) /\
    (forall k : string, k <> "total_amount" -> k <> "_id" ->
                        persisted !! k = model_dump order !! k) /\
    forall v : value,
      create_order
        (MkCreateOrderRequest (<["total_amount" := v]> (fields order)) (items order)) w =
      (Return resp, w').
Proof.
  intros Hrun.
  assert (forall v : value,
            create_order
              (MkCreateOrderRequest (<["total_amount" := v]> (fields order)) (items order)) w =
            (Return resp, w')) as Hclient.
  { intros v. by rewrite create_order_client_total. }
  rewrite create_order_unfold in Hrun.
  destruct (for_each add_item (items order) 0%float w) as [[total|e] w1] eqn:Hloop; [| done].
  simpl in Hrun.
  destruct (db w) as [d|] eqn:Hdb.
  2: { apply for_each_absent in Hloop as [_ ->]; [| done].
       unfold create_document in Hrun.
       by rewrite (store_call_absent _ _ w Hdb) in Hrun. }
  apply (for_each_returns _ _ _ _ _ d Hdb) in Hloop as (lines & Hall & -> & ->).
  destruct (fault d) as [e|] eqn:Hf.
  { unfold create_document in Hrun.
    by erewrite store_call_fault in Hrun; [| exact Hdb | exact Hf]. }
  erewrite create_document_run in Hrun; [| exact Hdb | exact Hf].
  injection Hrun as <- <-.
  set (persisted := <["_id" := VOid (MkObjectId (next_oid d))]>
                      (order_document order (order_total lines))).
  exists d, (add_document "order" persisted d), lines, persisted.
  split; [done |]. split; [done |]. split.
  { rewrite lookup_insert_ne by done. apply lookup_singleton_eq. }
  split; [reflexivity |]. split; [apply collection_add_document |]. split.
  { unfold persisted, order_document.
    rewrite lookup_insert_ne by done. apply lookup_insert_eq. }
  split; [| exact Hclient].
  intros k Hk1 Hk2. unfold persisted, order_document.
  by rewrite !lookup_insert_ne.
Qed.

(** C5: with a store that answers, an order without items succeeds
    with total 0.0, and its document is added to the orders. *)
Theorem create_order_no_items (order : CreateOrderRequest) (w : World) (d : Database) :
  items order = [] -> db w = Some d -> fault d = None ->
  exists (new_id : string) (w' : World) (d' : Database),
    create_order order w =
    (Return {[ "id" := VStr new_id; "total" := VFloat 0 ]}, w') /\
    db w' = Some d' /\
    collection d' "order" =
    collection d "order" ++
      [<["_id" := VOid (MkObjectId (next_oid d))]> (order_document order 0%float)] /\
    order_document order 0%float !! "total_amount" = Some (VFloat 0).
Proof.
  intros Hitems Hdb Hf. rewrite create_order_unfold, Hitems. simpl.
  change (PyFloat.round2 0) with 0%float.
  rewrite (create_document_run _ _ w d Hdb Hf).
  eexists _, _, _. split; [reflexivity |]. split; [reflexivity |].
  split; [apply collection_add_document | apply lookup_insert_eq].
Qed.

(** C4: two units of a product priced 12.99 and one unit of a product
    priced 19.50 make an order whose returned total is 45.48. *)
Theorem create_order_example_total (order : CreateOrderRequest) (w : World) (d : Database)
    (productA productB : string) (oidA oidB : ObjectId) (pA pB : dict) :
  db w = Some d -> fault d = None ->
  items order = [MkOrderItem productA 2; MkOrderItem productB 1] ->
  ObjectId_of_str productA = Some oidA -> lookup_product d oidA = Some pA ->
  pA !! "price" = Some (VFloat 12.99) ->
  ObjectId_of_str productB = Some oidB -> lookup_product d oidB = Some pB ->
  pB !! "price" = Some (VFloat 19.5) ->
  exists (new_id : string) (w' : World),
    create_order order w =
    (Return {[ "id" := VStr new_id; "total" := VFloat 45.48 ]}, w').
Proof.
  intros Hdb Hf Hitems HoA HpA HpriceA HoB HpB HpriceB.
  rewrite create_order_unfold, Hitems.
  rewrite (for_each_resolved _ [(12.99, 2); (19.5, 1)]%float _ w d Hdb Hf).
  2: { repeat constructor.
       - exists oidA, pA. repeat split; try done.
         unfold dict_get. by rewrite HpriceA.
       - exists oidB, pB. repeat split; try done.
         unfold dict_get. by rewrite HpriceB. }
  simpl fold_left.
  change (PyFloat.round2 (0 + 12.99 * 2 + 19.5 * 1)) with 45.48%float. simpl.
  rewrite (create_document_run _ _ _ d); [| done | done].
  by eexists _, _.
Qed.

End CreateOrder.

(** ** Zero times a finite float *)

Lemma finite_classes (x : float) :
  is_finite x = true ->
  (exists s, Prim2SF x = S754_zero s) \/ (exists s m e, Prim2SF x = S754_finite s m e).
Proof.
  unfold is_finite, is_nan, is_infinity. rewrite !FloatAxioms.eqb_spec, FloatAxioms.abs_spec.
  change (Prim2SF infinity) with (S754_infinity false).
  destruct (Prim2SF x) as [s|s| |s m e] eqn:E; simpl.
  - intros _. left. by exists s.
  - by destruct s.
  - discriminate.
  - intros _. right. by exists s, m, e.
Qed.

Lemma zero_mul_finite (x : float) :
  is_finite x = true -> exists s, Prim2SF (0 * x)%float = S754_zero s.
Proof.
  intros Hx. rewrite FloatAxioms.mul_spec. change (Prim2SF 0) with (S754_zero false).
  destruct (finite_classes x Hx) as [[s ->]|(s & m & e & ->)]; simpl; eauto.
Qed.

Lemma is_zero_zero_mul (x : float) :
  is_finite x = true -> is_zero (0 * x)%float = true.
Proof.
  intros Hx. destruct (zero_mul_finite x Hx) as [s Hs].
  unfold is_zero. rewrite FloatAxioms.eqb_spec, Hs. by destruct s.
Qed.

Lemma of_int_finite (z : Z) (x : float) :
  PyFloat.of_int z = Some x -> is_finite x = true.
Proof.
  unfold PyFloat.of_int.
  destruct (is_finite (SF2Prim (binary_normalize prec emax z 0 false))) eqn:E; [| done].
  by intros [= <-].
Qed.

Section OrderErrors.
Context `{Builtins}.

Lemma for_each_app {S A B} (body : A -> B -> M S A) (xs ys : list B) (acc : A) (s : S) :
  for_each body (xs ++ ys) acc s =
  match for_each body xs acc s with
  | (Return acc', s') => for_each body ys acc' s'
  | (Raise e, s') => (Raise e, s')
  end.
Proof.
  revert acc s. induction xs as [|x xs IH]; intros acc s; simpl; [done |].
  unfold bind. destruct (body acc x s) as [[acc'|e] s']; [apply IH | done].
Qed.

Lemma lookups_resolved (d : Database) (items : list OrderItem) (lines : list (float * float)) :
  Forall2 (item_line d) items lines -> length (lookups items) = length items.
Proof.
  induction 1 as [|item line items lines (oid & p & Ho & _) _ IH]; [done |].
  unfold lookups in *. simpl. rewrite Ho. simpl. by f_equal.
Qed.

(** C9 (as amended): an item whose product is in the store without a
    price field, in a quantity that converts to a float, is priced 0:
    converting the price raises nothing, and the amount the item adds
    to the running total is a zero. *)
Theorem add_item_missing_price (total : float) (item : OrderItem) (w : World)
    (d : Database) (oid : ObjectId) (p : dict) (q : float) :
  db w = Some d -> fault d = None ->
  ObjectId_of_str (product_id item) = Some oid ->
  lookup_product d oid = Some p ->
  p !! "price" = None ->
  PyFloat.of_int (quantity item) = Some q ->
  py_float (dict_get p "price" (VInt 0)) = Return 0%float /\
  exists amount : float,
    add_item total item w = (Return (total + amount)%float, log_call (find_product oid) w) /\
    amount = (0 * q)%float /\
    is_zero amount = true.
Proof.
  intros Hdb Hf Ho Hp Hprice Hq.
  assert (py_float (dict_get p "price" (VInt 0)) = Return 0%float) as Hzero.
  { unfold dict_get. by rewrite Hprice. }
  split; [exact Hzero |]. exists (0 * q)%float. split; [| split; [done |]].
  - rewrite (add_item_run total item w d oid Hdb Hf Ho), Hp, Hzero.
    unfold float_mul_int. by rewrite Hq.
  - apply is_zero_zero_mul. by apply (of_int_finite (quantity item)).
Qed.

(** C2 (as amended): on a store that answers, when every item before
    [bad] passes the loop (its identifier is accepted by [ObjectId] and
    resolves to a product, the price of that product converts to a
    float, and so does the quantity), and [bad] carries an identifier
    that [ObjectId] accepts and no product has, [create_order] raises
    404 with that identifier in its message; the store is as it was,
    and the calls made are the lookups of the items up to [bad] and
    nothing more. *)
Theorem create_order_not_found (order : CreateOrderRequest) (w : World) (d : Database)
    (pre post : list OrderItem) (bad : OrderItem) (lines : list (float * float))
    (oid : ObjectId) :
  db w = Some d -> fault d = None ->
  items order = pre ++ bad :: post ->
  Forall2 (item_line d) pre lines ->
  ObjectId_of_str (product_id bad) = Some oid ->
  lookup_product d oid = None ->
  exists w' : World,
    create_order order w =
    (Raise (HTTPException 404 ("Product not found: " +:+ product_id bad)), w') /\
    db w' = db w /\
    calls w' = calls w ++ lookups pre ++ [find_product oid] /\
    length (lookups pre) = length pre.
Proof.
  intros Hdb Hf Hitems Hpre Ho Hnone.
  exists (log_calls (lookups pre ++ [find_product oid]) w).
  split; [| split; [reflexivity | split; [reflexivity |]]].
  - rewrite create_order_unfold, Hitems, for_each_app.
    rewrite (for_each_resolved pre lines _ w d Hdb Hf Hpre). simpl. unfold bind.
    erewrite add_item_run; [| exact Hdb | exact Hf | exact Ho].
    rewrite Hnone. simpl. by rewrite log_calls_log_call.
  - by apply (lookups_resolved d pre lines).
Qed.

End OrderErrors.

Section SeedAndTest.
Context `{Builtins}.

Lemma count_all (l : list dict) : List.filter (matches ∅) l = l.
Proof. erewrite filter_ext; [apply filter_all |]. intros x. apply matches_empty. Qed.

Lemma seed_products_seeded (w : World) (d : Database) :
  db w = Some d -> fault d = None -> collection d "product" <> [] ->
  seed_products w =
  (Return (already_seeded (Z.of_nat (length (collection d "product")))),
   log_call (CountDocuments "product" ∅) w).
Proof.
  intros Hdb Hf Hne. unfold seed_products, try_except, bind, gets, count_documents.
  rewrite Hdb, (store_call_run _ _ w d Hdb Hf). simpl.
  rewrite count_all, (set_db_same _ w d Hdb).
  destruct (collection d "product") as [|x l]; [done |]. reflexivity.
Qed.

Lemma app_singleton_ne {A} (l : list A) (x : A) : l ++ [x] <> [].
Proof. by destruct l. Qed.

Lemma seed_loop_run (l : list dict) (w : World) (d : Database) :
  db w = Some d -> fault d = None ->
  exists (w' : World) (d' : Database),
    for_each (fun _ p => create_document "product" p ;;; ret tt) l tt w = (Return tt, w') /\
    db w' = Some d' /\ fault d' = None /\
    length (collection d' "product") = (length (collection d "product") + length l)%nat.
Proof.
  revert w d. induction l as [|p l IH]; intros w d Hdb Hf.
  - exists w, d. simpl. by rewrite Nat.add_0_r.
  - simpl. unfold bind at 1 2. rewrite (create_document_run _ _ w d Hdb Hf).
    simpl.
    destruct (IH (set_db (add_document "product"
                            (<["_id" := VOid (MkObjectId (next_oid d))]> p) d)
                         (log_call (InsertOne "product" p) w))
                 (add_document "product" (<["_id" := VOid (MkObjectId (next_oid d))]> p) d))
      as (w' & d' & Hrun & Hdb' & Hf' & Hlen); [done | done |].
    exists w', d'. split; [exact Hrun |]. split; [done |]. split; [done |].
    rewrite Hlen, collection_add_document, length_app. simpl. lia.
Qed.

Lemma seed_products_success (w w1 : World) (r : dict) :
  seed_products w = (Return r, w1) -> seeded w1.
Proof.
  unfold seed_products, try_except, bind, gets. intros Hrun.
  destruct (db w) as [d|] eqn:Hdb.
  - unfold count_documents in Hrun. destruct (fault d) as [e|] eqn:Hf.
    { by rewrite (store_call_fault _ _ w d e Hdb Hf) in Hrun. }
    rewrite (store_call_run _ _ w d Hdb Hf) in Hrun. cbn [fst snd] in Hrun.
    rewrite count_all, (set_db_same _ w d Hdb) in Hrun.
    destruct (collection d "product") as [|x l] eqn:Hcoll.
    + change (0 <? Z.of_nat (length (@nil dict))) with false in Hrun.
      destruct (seed_loop_run sample (log_call (CountDocuments "product" ∅) w) d)
        as (w' & d' & Hloop & Hdb' & Hf' & Hlen); [done | done |].
      unfold bind in Hloop. cbv beta iota in Hrun. rewrite Hloop in Hrun. injection Hrun as _ <-.
      exists d'. split; [done |]. split; [done |].
      intros Hnil. rewrite Hnil in Hlen. simpl in Hlen. lia.
    + change (0 <? Z.of_nat (length (x :: l))) with true in Hrun.
      injection Hrun as _ <-. exists d. by rewrite Hcoll.
  - simpl in Hrun. unfold bind, create_document in Hrun.
    by rewrite (store_call_absent _ _ w Hdb) in Hrun.
Qed.

(** C6: on a store that answers and holds products, and so after any
    call of [seed_products] that succeeded, [seed_products] returns
    the number of products there are; its one call on the store is
    the count, and the store is as it was. *)
Theorem seed_products_idempotent (w : World) :
  seeded w \/ (exists (w0 : World) (r0 : dict), seed_products w0 = (Return r0, w)) ->
  exists d : Database,
    db w = Some d /\
    collection d "product" <> [] /\
    seed_products w =
    (Return (already_seeded (Z.of_nat (length (collection d "product")))),
     log_call (CountDocuments "product" ∅) w) /\
    db (log_call (CountDocuments "product" ∅) w) = Some d.
Proof.
  intros Hw.
  assert (seeded w) as (d & Hdb & Hf & Hne).
  { destruct Hw as [Hs|(w0 & r0 & Hrun)]; [exact Hs |].
    by apply (seed_products_success w0 w r0). }
  exists d. split; [done |]. split; [done |]. split; [| done].
  by apply seed_products_seeded.
Qed.

(** C8: in every state of the world, [test_database] returns a report
    and raises nothing; the store is left as it was, and what went
    wrong with it is told in the report's ["database"] entry. *)
Theorem test_database_never_raises (w : World) :
  exists (response : dict) (w' : World),
    test_database w = (Return response, w') /\
    db w' = db w /\
    response !! "backend" = Some (VStr "✅ Running") /\
    response !! "database" = Some (VStr (database_status w)).
Proof.
  destruct w as [[[name colls n [e|]]|] env cs];
    [destruct name as [|nm|en] | destruct name as [|nm|en] |];
    eexists _, _; (split; [reflexivity |]);
    (split; [reflexivity |]); split; reflexivity.
Qed.

End SeedAndTest.

(** ** The properties on concrete runs *)

Lemma seeded_store_is_db : db seeded_world = Some seeded_store.
Proof. reflexivity. Qed.

Lemma seeded_store_products : length (collection seeded_store "product") = 3%nat.
Proof. vm_compute. reflexivity. Qed.

(** C10, the claim as first written fails: a document that holds both
    ["_id"] and ["id"] comes back with its ["id"] replaced. *)
Lemma serialize_doc_overwrites_id :
  let d : dict := {[ "_id" := VOid (MkObjectId 1); "id" := VStr "sku-7" ]} in
  d !! "id" = Some (VStr "sku-7") /\
  @serialize_doc runtime (Some d) = Some {[ "id" := VStr "000000000000000000000001" ]}.
Proof. split; vm_compute; reflexivity. Qed.

(** C3, the claim as first written fails: the empty category string
    selects every product, though none has the empty category. *)
Lemma list_products_empty_category :
  (@list_products runtime (Some EmptyString) seeded_world).1 =
  Return (map (fun x => @serialize_doc runtime (Some x)) (collection seeded_store "product")) /\
  length (collection seeded_store "product") = 3%nat /\
  List.filter (has_category EmptyString) (collection seeded_store "product") = [].
Proof. repeat split; vm_compute; reflexivity. Qed.

Lemma list_products_filter_witness :
  exists w' : World,
    @list_products runtime (Some "Boxes") seeded_world =
    (Return (map (fun x => @serialize_doc runtime (Some x))
               (List.filter (has_category "Boxes") (collection seeded_store "product"))), w') /\
    db w' = db seeded_world /\
    forall (c : string) (x : dict),
      has_category c x = true <-> x !! "category" = Some (VStr c).
Proof.
  apply (@list_products_filter runtime (Some "Boxes") seeded_world seeded_store);
    reflexivity.
Defined.

Lemma list_products_hides_id_witness :
  exists stored : list dict,
    Forall2 (fun (s : dict) (r : option dict) =>
               exists m : dict,
                 r = Some m /\ m !! "_id" = None /\
                 forall v : value, s !! "_id" = Some v ->
                                   m !! "id" = Some (VStr (@py_str runtime v)))
            stored
            (returned [] (@list_products runtime (Some "Boxes") seeded_world)) /\
    forall d : Database, db seeded_world = Some d ->
      exists query : dict,
        stored = List.filter (matches query) (collection d "product").
Proof.
  apply (@list_products_hides_id runtime (Some "Boxes") seeded_world
           (@list_products runtime (Some "Boxes") seeded_world).2).
  vm_compute. reflexivity.
Defined.

Lemma seed_products_idempotent_witness :
  exists d : Database,
    db seeded_world = Some d /\
    collection d "product" <> [] /\
    @seed_products runtime seeded_world =
    (Return (already_seeded (Z.of_nat (length (collection d "product")))),
     log_call (CountDocuments "product" ∅) seeded_world) /\
    db (log_call (CountDocuments "product" ∅) seeded_world) = Some d.
Proof.
  apply (@seed_products_idempotent runtime seeded_world).
  right. exists fresh_world, (returned ∅ (@seed_products runtime fresh_world)).
  vm_compute. reflexivity.
Defined.

Lemma create_order_total_witness :
  exists (d d' : Database) (lines : list (float * float)) (persisted : dict),
    db seeded_world = Some d /\
    Forall2 (@item_line runtime d) two_items lines /\
    returned ∅ (@create_order runtime (order_of two_items) seeded_world) !! "total" =
    Some (VFloat (order_total lines)) /\
    db (@create_order runtime (order_of two_items) seeded_world).2 = Some d' /\
    collection d' "order" = collection d "order" ++ [persisted] /\
    persisted !! "total_amount" = Some (VFloat (order_total lines)) /\
    (forall k : string, k <> "total_amount" -> k <> "_id" ->
                        persisted !! k = model_dump (order_of two_items) !! k) /\
    forall v : value,
      @create_order runtime
        (MkCreateOrderRequest (<["total_amount" := v]> (fields (order_of two_items)))
                              (items (order_of two_items)))
        seeded_world =
      (Return (returned ∅ (@create_order runtime (order_of two_items) seeded_world)),
       (@create_order runtime (order_of two_items) seeded_world).2).
Proof.
  apply (@create_order_total runtime (order_of two_items) seeded_world).
  vm_compute. reflexivity.
Defined.

Lemma create_order_example_total_witness :
  exists (new_id : string) (w' : World),
    @create_order runtime (order_of two_items) seeded_world =
    (Return {[ "id" := VStr new_id; "total" := VFloat 45.48 ]}, w').
Proof.
  apply (@create_order_example_total runtime (order_of two_items) seeded_world seeded_store
           "000000000000000000000001" "000000000000000000000002"
           (MkObjectId 1) (MkObjectId 2)
           (default ∅ (lookup_product seeded_store (MkObjectId 1)))
           (default ∅ (lookup_product seeded_store (MkObjectId 2))));
    vm_compute; reflexivity.
Defined.

Lemma create_order_no_items_witness :
  exists (new_id : string) (w' : World) (d' : Database),
    @create_order runtime (order_of []) seeded_world =
    (Return {[ "id" := VStr new_id; "total" := VFloat 0 ]}, w') /\
    db w' = Some d' /\
    collection d' "order" =
    collection seeded_store "order" ++
      [<["_id" := VOid (MkObjectId (next_oid seeded_store))]>
         (order_document (order_of []) 0%float)] /\
    order_document (order_of []) 0%float !! "total_amount" = Some (VFloat 0).
Proof.
  apply (@create_order_no_items runtime (order_of []) seeded_world seeded_store);
    reflexivity.
Defined.

Lemma add_item_missing_price_witness :
  @py_float runtime
    (dict_get {[ "_id" := VOid (MkObjectId 7); "title" := VStr "Loose fill" ]}
       "price" (VInt 0)) = Return 0%float /\
  exists amount : float,
    @add_item runtime 25.98%float (MkOrderItem "000000000000000000000007" 3) unpriced_world =
    (Return (25.98 + amount)%float, log_call (find_product (MkObjectId 7)) unpriced_world) /\
    amount = (0 * 3)%float /\
    is_zero amount = true.
Proof.
  apply (@add_item_missing_price runtime 25.98%float
           (MkOrderItem "000000000000000000000007" 3) unpriced_world
           (default empty_store (db unpriced_world)) (MkObjectId 7)
           {[ "_id" := VOid (MkObjectId 7); "title" := VStr "Loose fill" ]} 3%float);
    vm_compute; reflexivity.
Defined.

Lemma create_order_not_found_witness :
  exists w' : World,
    @create_order runtime (order_of missing_second) seeded_world =
    (Raise (HTTPException 404 "Product not found: 000000000000000000000009"), w') /\
    db w' = db seeded_world /\
    calls w' =
    calls seeded_world ++
      lookups [MkOrderItem "000000000000000000000001" 2] ++
      [find_product (MkObjectId 9)] /\
    length (lookups [MkOrderItem "000000000000000000000001" 2]) = 1%nat.
Proof.
  apply (@create_order_not_found runtime (order_of missing_second) seeded_world seeded_store
           [MkOrderItem "000000000000000000000001" 2]
           [MkOrderItem "000000000000000000000002" 1]
           (MkOrderItem "000000000000000000000009" 1)
           [(12.99, 2)%float] (MkObjectId 9));
    [reflexivity | reflexivity | reflexivity | | reflexivity | vm_compute; reflexivity].
  constructor; [| constructor].
  exists (MkObjectId 1), (default ∅ (lookup_product seeded_store (MkObjectId 1))).
  repeat split; vm_compute; reflexivity.
Defined.

(** C2, the claim as first written fails: the identifier ["abc"] is
    refused by [ObjectId], so it resolves to no product, and the answer
    is 500 with the text of that [InvalidId], not 404. *)
Lemma create_order_bad_reference :
  ObjectId_of_str "abc" = None /\
  (@add_item runtime 0%float (MkOrderItem "abc" 1) seeded_world).1 =
  Raise (InvalidId "abc") /\
  (@create_order runtime (order_of [MkOrderItem "abc" 1]) seeded_world).1 =
  Raise (HTTPException 500 (@exn_str runtime (InvalidId "abc"))).
Proof. repeat split; vm_compute; reflexivity. Qed.

(** An identifier with blanks is looked up, finds nothing, and is
    answered 404. *)
Example create_order_blank_reference :
  (@create_order runtime (order_of [MkOrderItem "00 00 00 00 00 00 00 00 " 1])
     seeded_world).1 =
  Raise (HTTPException 404 "Product not found: 00 00 00 00 00 00 00 00 ").
Proof. vm_compute. reflexivity. Qed.

(** C9, the claim as first written fails: an item of a product without
    a price, in a quantity beyond the range of floats, is an error:
    [0.0 * quantity] raises [OverflowError] and the answer is 500. *)
Lemma create_order_unpriced_overflow :
  PyFloat.of_int (2 ^ 1024) = None /\
  (@add_item runtime 0%float (MkOrderItem "000000000000000000000007" (2 ^ 1024))
     unpriced_world).1 = Raise OverflowError /\
  (@create_order runtime (order_of [MkOrderItem "000000000000000000000007" (2 ^ 1024)])
     unpriced_world).1 =
  Raise (HTTPException 500 (@exn_str runtime OverflowError)).
Proof. repeat split; vm_compute; reflexivity. Qed.

(** * Further properties of the endpoints *)

Section Listing.
Context `{Builtins}.

(** X1: [serialize_doc] is idempotent: a second pass changes nothing,
    because the first leaves no ["_id"] behind. *)
Theorem serialize_doc_idempotent (doc : option dict) :
  serialize_doc (serialize_doc doc) = serialize_doc doc.
Proof.
  destruct doc as [d|]; [| reflexivity].
  destruct (serialize_doc_lookup d) as (r & Hr & Hid & _).
  rewrite Hr, (serialize_doc_Some r). by rewrite Hid.
Qed.

Lemma filter_sublist {A} (f : A -> bool) (l : list A) : sublist (List.filter f l) l.
Proof.
  induction l as [|x l IH]; simpl; [constructor |].
  destruct (f x); by constructor.
Qed.

(** X2: on a store that answers, what [list_products] returns for a
    category is a sublist of what it returns without one, in the same
    order, and neither call changes the store. *)
Theorem list_products_category_sublist (c : string) (w : World) (d : Database) :
  db w = Some d -> fault d = None ->
  exists (some all : list (option dict)) (w1 w2 : World),
    list_products (Some c) w = (Return some, w1) /\
    list_products None w = (Return all, w2) /\
    sublist some all /\
    length all = length (collection d "product") /\
    db w1 = db w /\ db w2 = db w.
Proof.
  intros Hdb Hf.
  rewrite (list_products_run (Some c) w d Hdb Hf), (list_products_run None w d Hdb Hf).
  eexists _, _, _, _. split; [reflexivity |]. split; [reflexivity |].
  split; [| split; [| split; reflexivity]].
  - apply fmap_sublist.
    erewrite (filter_ext (matches ∅)); [rewrite filter_all | apply matches_empty].
    apply filter_sublist.
  - rewrite length_map.
    erewrite filter_ext; [by rewrite filter_all | apply matches_empty].
Qed.

(** X3: on a store that answers, [create_product] returns the
    identifier the store assigned, and a listing made afterwards ends
    with the new product: its fields as sent, the identifier under
    ["id"], and no ["_id"]. *)
Theorem create_product_listed (product : dict) (w : World) (d : Database) :
  db w = Some d -> fault d = None ->
  exists (new_id : string) (w1 w2 : World),
    create_product product w = (Return {[ "id" := VStr new_id ]}, w1) /\
    list_products None w1 =
    (Return (map (fun x => serialize_doc (Some x)) (collection d "product") ++
             [Some (<["id" := VStr new_id]> (delete "_id" product))]), w2) /\
    new_id = oid_hex (MkObjectId (next_oid d)).
Proof.
  intros Hdb Hf.
  set (oid := MkObjectId (next_oid d)).
  set (d1 := add_document "product" (<["_id" := VOid oid]> product) d).
  exists (oid_hex oid), (set_db d1 (log_call (InsertOne "product" product) w)).
  eexists. split; [| split; [| reflexivity]].
  - unfold create_product, try_except, bind.
    by rewrite (create_document_run _ _ w d Hdb Hf).
  - rewrite (list_products_run None _ d1); [| reflexivity | exact Hf].
    apply (f_equal2 pair); [| reflexivity]. f_equal.
    erewrite filter_ext; [rewrite filter_all | apply matches_empty].
    unfold d1. rewrite collection_add_document, map_app. f_equal. simpl.
    rewrite serialize_doc_Some, lookup_insert_eq. simpl.
    by rewrite delete_insert_eq.
Qed.

End Listing.

Section OrderOutcomes.
Context `{Builtins}.

Lemma add_item_keeps_db (total : float) (item : OrderItem) (w : World) :
  db (add_item total item w).2 = db w.
Proof.
  destruct (db w) as [d|] eqn:Hdb.
  - destruct (ObjectId_of_str (product_id item)) as [oid|] eqn:Ho.
    + destruct (fault d) as [e|] eqn:Hf.
      * by rewrite (add_item_fault total item w d oid e Hdb Hf Ho).
      * by rewrite (add_item_run total item w d oid Hdb Hf Ho).
    + by rewrite (add_item_invalid total item w d Hdb Ho).
  - by rewrite (add_item_absent total item w Hdb).
Qed.

Lemma for_each_keeps_db (items : list OrderItem) (total : float) (w : World) :
  db (for_each add_item items total w).2 = db w.
Proof.
  revert total w. induction items as [|item items IH]; intros total w; [done |].
  simpl. unfold bind. pose proof (add_item_keeps_db total item w) as Hstep.
  destruct (add_item total item w) as [[total'|e] w1]; simpl in *.
  - by rewrite IH.
  - exact Hstep.
Qed.

Lemma order_handler_http (e : exn) :
  exists (status : Z) (detail : string), order_handler e = HTTPException status detail.
Proof. destruct e; simpl; eauto. Qed.

(** X4: when [create_order] raises, what it raises is an
    [HTTPException], and the store holds what it held before: no order,
    whole or partial, was added. *)
Theorem create_order_failure_is_clean (order : CreateOrderRequest) (w w' : World) (e : exn) :
  create_order order w = (Raise e, w') ->
  (exists (status : Z) (detail : string), e = HTTPException status detail) /\
  db w' = db w.
Proof.
  rewrite create_order_unfold.
  pose proof (for_each_keeps_db (items order) 0%float w) as Hloop.
  destruct (for_each add_item (items order) 0%float w) as [[total|e1] w1]; simpl in *.
  - unfold create_document, store_call.
    destruct (db w1) as [d|] eqn:Hdb1.
    + destruct (fault d) as [e2|] eqn:Hf.
      * intros [= <- <-].
        split; [apply (order_handler_http e2) | by rewrite db_log_call, Hdb1].
      * discriminate.
    + intros [= <- <-].
      split; [apply (order_handler_http DatabaseUnavailable) | by rewrite Hdb1].
  - intros [= <- <-]. split; [apply (order_handler_http e1) | done].
Qed.

(** X5: without a store, an order that has items is answered 404 with
    the identifier of its first item, whatever that identifier looks
    like, and the store is never called. *)
Theorem create_order_without_store (order : CreateOrderRequest) (w : World)
    (item : OrderItem) (rest : list OrderItem) :
  db w = None -> items order = item :: rest ->
  create_order order w =
  (Raise (HTTPException 404 ("Product not found: " +:+ product_id item)), w).
Proof.
  intros Hdb Hitems. rewrite create_order_unfold, Hitems. simpl. unfold bind.
  by rewrite (add_item_absent _ item w Hdb).
Qed.


Lemma py_float_raises (v : value) (e : exn) :
  py_float v = Raise e -> order_handler e = HTTPException 500 (exn_str e).
Proof.
  destruct v; simpl; try (by intros [= <-]); try discriminate.
  - destruct (PyFloat.of_int z); [discriminate | by intros [= <-]].
  - destruct (float_of_str s); [discriminate | by intros [= <-]].
Qed.


(** X8: when [create_order] succeeds, the calls it made on the store
    are one lookup per item, in the order of the items, and then the one
    insert; the products are untouched, and the identifier it returns
    is the string of the ["_id"] of the order stored last. *)
Theorem create_order_success_trace (order : CreateOrderRequest) (w w' : World) (resp : dict) :
  create_order order w = (Return resp, w') ->
  exists (d d' : Database) (lines : list (float * float)),
    db w = Some d /\ db w' = Some d' /\
    calls w' =
    calls w ++ lookups (items order) ++
      [InsertOne "order" (order_document order (order_total lines))] /\
    length (lookups (items order)) = length (items order) /\
    collection d' "product" = collection d "product" /\
    resp !! "id" = Some (VStr (oid_hex (MkObjectId (next_oid d)))) /\
    last (collection d' "order") ≫= (fun x => x !! "_id") =
    Some (VOid (MkObjectId (next_oid d))).
Proof.
  intros Hrun. rewrite create_order_unfold in Hrun.
  destruct (for_each add_item (items order) 0%float w) as [[total|e] w1] eqn:Hloop; [| done].
  simpl in Hrun.
  destruct (db w) as [d|] eqn:Hdb.
  2: { apply for_each_absent in Hloop as [_ ->]; [| done].
       unfold create_document in Hrun.
       by rewrite (store_call_absent _ _ w Hdb) in Hrun. }
  apply (for_each_returns _ _ _ _ _ d Hdb) in Hloop as (lines & Hall & -> & ->).
  destruct (fault d) as [e|] eqn:Hf.
  { unfold create_document in Hrun.
    by erewrite store_call_fault in Hrun; [| exact Hdb | exact Hf]. }
  erewrite create_document_run in Hrun; [| exact Hdb | exact Hf].
  injection Hrun as <- <-.
  eexists d, _, lines. split; [done |]. split; [reflexivity |].
  split; [| split; [| split; [| split]]].
  - simpl. by rewrite <- app_assoc.
  - by apply (lookups_resolved d _ lines).
  - by apply collection_add_document_ne.
  - apply lookup_insert_eq.
  - rewrite collection_add_document, last_snoc. simpl. apply lookup_insert_eq.
Qed.

End OrderOutcomes.

Section DiagnosticsReport.
Context `{Builtins}.

(** X9: the ["database_url"] and ["database_name"] entries of the
    diagnostic report tell only whether the environment variables
    DATABASE_URL and DATABASE_NAME are set to a non-empty string; what
    the store is or does has no part in them. *)
Theorem test_database_reports_environment (w : World) :
  exists (response : dict) (w' : World),
    test_database w = (Return response, w') /\
    response !! "database_url" = Some (env_flag w "DATABASE_URL") /\
    response !! "database_name" = Some (env_flag w "DATABASE_NAME") /\
    environ w' = environ w.
Proof.
  destruct w as [[[name colls n [e|]]|] env cs];
    [destruct name as [|nm|en] | destruct name as [|nm|en] |];
    eexists _, _; (split; [reflexivity |]); repeat split; reflexivity.
Qed.

(** X10: the report names at most ten collections, the first ten of a
    store that answers; it says ["Connected"] exactly when there is a
    store whose name can be read; and the one call [test_database] may
    make on the store is the listing of the collection names. *)
Theorem test_database_collections (w : World) :
  exists (response : dict) (w' : World),
    test_database w = (Return response, w') /\
    response !! "collections" = Some (VList (map VStr (listed_collections w))) /\
    (length (listed_collections w) <= 10)%nat /\
    response !! "connection_status" =
    Some (VStr (if reports_connected w then "Connected" else "Not Connected")) /\
    calls w' = calls w ++ diagnostic_calls w.
Proof.
  assert (length (listed_collections w) <= 10)%nat as Hlen.
  { unfold listed_collections.
    destruct (db w) as [d|]; [| simpl; lia].
    destruct (db_name d), (fault d); simpl; try lia; rewrite length_take; lia. }
  destruct w as [[[name colls n [e|]]|] env cs];
    [destruct name as [|nm|en] | destruct name as [|nm|en] |];
    eexists _, _; (split; [reflexivity |]);
    (split; [reflexivity |]); (split; [exact Hlen |]);
    (split; [reflexivity |]); simpl; by rewrite ?app_nil_r.
Qed.

End DiagnosticsReport.

(** ** Identifiers: from the number to its string and back *)

Lemma hex_value_digit (n : N) : (n < 16)%N -> hex_value (hex_digit n) = Some n.
Proof.
  intros Hn. destruct n as [|p]; [reflexivity |].
  do 4 (destruct p as [p|p|]; try reflexivity); lia.
Qed.

Lemma is_space_digit (n : N) : (n < 16)%N -> is_space (hex_digit n) = false.
Proof.
  intros Hn. destruct n as [|p]; [reflexivity |].
  do 4 (destruct p as [p|p|]; try reflexivity); lia.
Qed.

Lemma string_app_cons (c : ascii) (s t : string) :
  String c s +:+ t = String c (s +:+ t).
Proof. reflexivity. Qed.

Lemma string_app_nil_l (t : string) : EmptyString +:+ t = t.
Proof. reflexivity. Qed.

Lemma string_app_assoc (s1 s2 s3 : string) :
  (s1 +:+ s2) +:+ s3 = s1 +:+ (s2 +:+ s3).
Proof.
  induction s1 as [|c s1 IH]; [reflexivity |].
  rewrite !string_app_cons. by f_equal.
Qed.

Lemma string_app_nil_r (s : string) : s +:+ EmptyString = s.
Proof.
  induction s as [|c s IH]; [reflexivity |].
  rewrite string_app_cons. by f_equal.
Qed.

Lemma length_string_app (s1 s2 : string) :
  String.length (s1 +:+ s2) = (String.length s1 + String.length s2)%nat.
Proof. induction s1 as [|c s1 IH]; simpl; [done | by rewrite IH]. Qed.

Lemma length_hex_of (k : nat) (n : N) : String.length (hex_of k n) = k.
Proof.
  revert n. induction k as [|k IH]; intros n; simpl; [done |].
  rewrite length_string_app, IH. simpl. lia.
Qed.

(** Reading back the digits of [k] bytes. *)
Lemma fromhex_hex_of (k : nat) (n : N) (t : string) (size : nat) (acc : N) :
  fromhex (hex_of (2 * k) n +:+ t) size acc =
  fromhex t (size + k)%nat (acc * 256 ^ N.of_nat k + n mod 256 ^ N.of_nat k)%N.
Proof.
  revert n t size acc. induction k as [|k IH]; intros n t size acc.
  - cbn [Nat.mul hex_of N.of_nat]. rewrite string_app_nil_l.
    rewrite N.pow_0_r, N.mod_1_r, Nat.add_0_r. f_equal. lia.
  - replace (2 * S k)%nat with (S (S (2 * k))) by lia.
    cbn [hex_of]. rewrite N.Div0.div_div, !string_app_assoc.
    rewrite !string_app_cons, !string_app_nil_l.
    change (16 * 16)%N with 256%N. rewrite IH. cbn [fromhex].
    rewrite is_space_digit by (apply N.mod_lt; lia).
    rewrite !hex_value_digit by (apply N.mod_lt; lia).
    f_equal; [lia |].
    rewrite Nat2N.inj_succ, N.pow_succ_r'.
    rewrite (N.Div0.mod_mul_r n 256 (256 ^ N.of_nat k)).
    pose proof (N.Div0.mod_mul_r n 16 16) as Hbyte.
    change (16 * 16)%N with 256%N in Hbyte. lia.
Qed.

(** The string of a twelve-byte identifier spells that identifier. *)
Lemma ObjectId_of_str_hex (n : N) :
  (n < 16 ^ 24)%N -> ObjectId_of_str (oid_hex (MkObjectId n)) = Some (MkObjectId n).
Proof.
  intros Hn. unfold ObjectId_of_str, oid_hex, MkObjectId. cbn [oid_size oid_value].
  rewrite length_hex_of. change (Nat.eqb (2 * 12) 24) with true. cbv iota.
  rewrite <- (string_app_nil_r (hex_of (2 * 12) n)), fromhex_hex_of.
  change (256 ^ N.of_nat 12)%N with (16 ^ 24)%N.
  rewrite N.mod_small by exact Hn. simpl. by rewrite N.add_0_l.
Qed.

Section SeedingAndOrdering.
Context `{Builtins}.

Lemma seed_loop_inserts (l : list dict) (w : World) (d : Database) :
  db w = Some d -> fault d = None ->
  exists (w' : World) (d' : Database),
    for_each (fun _ p => create_document "product" p ;;; ret tt) l tt w = (Return tt, w') /\
    db w' = Some d' /\
    collection d' "product" =
    collection d "product" ++
      imap (fun i p => <["_id" := VOid (MkObjectId (next_oid d + N.of_nat i))]> p) l /\
    calls w' = calls w ++ map (InsertOne "product") l.
Proof.
  revert w d. induction l as [|p l IH]; intros w d Hdb Hf.
  - exists w, d. simpl. by rewrite !app_nil_r.
  - simpl for_each. unfold bind at 1 2. rewrite (create_document_run _ _ w d Hdb Hf).
    cbv beta iota.
    set (d1 := add_document "product" (<["_id" := VOid (MkObjectId (next_oid d))]> p) d).
    destruct (IH (set_db d1 (log_call (InsertOne "product" p) w)) d1)
      as (w' & d' & Hrun & Hdb' & Hcoll & Hcalls); [done | done |].
    exists w', d'. split; [exact Hrun |]. split; [done |]. split.
    + rewrite Hcoll. unfold d1 at 1. rewrite collection_add_document, <- app_assoc.
      f_equal. simpl. rewrite N.add_0_r. f_equal.
      apply imap_ext. intros i x _. simpl. do 3 f_equal. lia.
    + rewrite Hcalls. simpl. by rewrite <- app_assoc.
Qed.

(** X11: on a store that answers and holds no product, [seed_products]
    stores the sample products in their order, each under the next
    identifier of the store, and returns their number; its calls on the
    store are the count and one insert per sample. *)
Theorem seed_products_fills_empty (w : World) (d : Database) :
  db w = Some d -> fault d = None -> collection d "product" = [] ->
  exists (w' : World) (d' : Database),
    seed_products w =
    (Return {[ "message" := VStr "Seeded sample products"; "count" := VInt 3 ]}, w') /\
    db w' = Some d' /\
    collection d' "product" =
    imap (fun i p => <["_id" := VOid (MkObjectId (next_oid d + N.of_nat i))]> p) sample /\
    calls w' = calls w ++ CountDocuments "product" ∅ :: map (InsertOne "product") sample.
Proof.
  intros Hdb Hf Hempty.
  destruct (seed_loop_inserts sample (log_call (CountDocuments "product" ∅) w) d)
    as (w' & d' & Hloop & Hdb' & Hcoll & Hcalls); [done | done |].
  exists w', d'. split; [| split; [done | split]].
  - unfold seed_products, try_except, bind, gets, count_documents.
    rewrite Hdb, (store_call_run _ _ w d Hdb Hf). cbn [fst snd].
    rewrite count_all, (set_db_same _ w d Hdb), Hempty.
    change (0 <? Z.of_nat (length (@nil dict))) with false. cbv beta iota.
    unfold bind in Hloop. by rewrite Hloop.
  - by rewrite Hcoll, Hempty.
  - rewrite Hcalls. simpl. by rewrite <- app_assoc.
Qed.

Lemma head_filter_none {A} (f : A -> bool) (l : list A) :
  head (List.filter f l) = None -> List.filter f l = [].
Proof. by destruct (List.filter f l). Qed.

(** X12: a product made with [create_product] can be ordered under the
    identifier that call returned: on a store that answers, whose next
    identifier no product bears yet, the order of [quantity] units, for
    a quantity that the store can hold, is accepted and its total is the
    price times the quantity, rounded to two decimals. *)
Theorem create_product_then_order (product buyer : dict) (quantity : Z)
    (w : World) (d : Database) (price q : float) :
  db w = Some d -> fault d = None ->
  (next_oid d < 16 ^ 24)%N ->
  lookup_product d (MkObjectId (next_oid d)) = None ->
  py_float (dict_get product "price" (VInt 0)) = Return price ->
  fits_int64 quantity ->
  PyFloat.of_int quantity = Some q ->
  exists (new_id : string) (w1 w2 : World) (resp : dict),
    create_product product w = (Return {[ "id" := VStr new_id ]}, w1) /\
    create_order (MkCreateOrderRequest buyer [MkOrderItem new_id quantity]) w1 =
    (Return resp, w2) /\
    resp !! "total" = Some (VFloat (PyFloat.round2 (0 + price * q))).
Proof.
  intros Hdb Hf Hfresh Hnone Hprice _ Hq.
  set (oid := MkObjectId (next_oid d)) in *.
  set (stored := <["_id" := VOid oid]> product).
  set (d1 := add_document "product" stored d).
  set (w1 := set_db d1 (log_call (InsertOne "product" product) w)).
  assert (lookup_product d1 oid = Some stored) as Hlookup.
  { unfold lookup_product, d1. rewrite collection_add_document, List.filter_app.
    unfold lookup_product in Hnone. apply head_filter_none in Hnone.
    rewrite Hnone. simpl.
    rewrite matches_singleton. unfold field_matches, stored. simpl.
    rewrite lookup_insert_eq. simpl. by rewrite N.eqb_refl. }
  assert (item_line d1 (MkOrderItem (oid_hex oid) quantity) (price, q)) as Hline.
  { exists oid, stored. split; [by apply ObjectId_of_str_hex |].
    split; [exact Hlookup |]. split; [| exact Hq].
    unfold dict_get, stored in *. by rewrite lookup_insert_ne. }
  exists (oid_hex oid), w1. eexists _, _. split; [| split].
  - unfold create_product, try_except, bind.
    by rewrite (create_document_run _ _ w d Hdb Hf).
  - rewrite create_order_unfold. simpl items.
    rewrite (for_each_resolved _ [(price, q)] _ w1 d1); [| done | done | by repeat constructor].
    cbv beta iota zeta.
    erewrite create_document_run; [reflexivity | reflexivity | exact Hf].
  - rewrite lookup_insert_ne by done. by rewrite lookup_singleton_eq.
Qed.

End SeedingAndOrdering.

Section UnpricedOrders.
Context `{Builtins}.

Lemma zero_add_zero_mul (q : float) :
  is_finite q = true -> (0 + 0 * q)%float = 0%float.
Proof.
  intros Hq. apply Prim2SF_inj. rewrite FloatAxioms.add_spec.
  destruct (zero_mul_finite q Hq) as [s ->].
  change (Prim2SF 0) with (S754_zero false). by destruct s.
Qed.

Lemma fold_unpriced (lines : list (float * float)) :
  Forall (fun line => line.1 = 0%float /\ is_finite line.2 = true) lines ->
  fold_left (fun acc line => acc + line.1 * line.2)%float lines 0%float = 0%float.
Proof.
  induction 1 as [|[p q] lines [Hp Hq] _ IH]; [done |].
  simpl in *. subst p. by rewrite (zero_add_zero_mul q Hq).
Qed.

(** X13: on a store that answers, an order whose items all refer to
    products that have no price field, in quantities that the store can
    hold, is accepted, and its total is 0.0 whatever those quantities. *)
Theorem create_order_unpriced_total (order : CreateOrderRequest) (w : World) (d : Database) :
  db w = Some d -> fault d = None ->
  Forall (fun item =>
            exists (oid : ObjectId) (p : dict) (q : float),
              ObjectId_of_str (product_id item) = Some oid /\
              lookup_product d oid = Some p /\
              p !! "price" = None /\
              fits_int64 (quantity item) /\
              PyFloat.of_int (quantity item) = Some q) (items order) ->
  exists (new_id : string) (w' : World),
    create_order order w =
    (Return {[ "id" := VStr new_id; "total" := VFloat 0 ]}, w').
Proof.
  intros Hdb Hf Hitems.
  assert (exists lines : list (float * float),
            Forall2 (item_line d) (items order) lines /\
            Forall (fun line => line.1 = 0%float /\ is_finite line.2 = true) lines)
    as (lines & Hlines & Hzero).
  { induction Hitems
      as [|item items (oid & p & q & Ho & Hp & Hprice & _ & Hq) _ (lines & IH1 & IH2)].
    - exists []. by split; constructor.
    - exists ((0%float, q) :: lines). split; constructor; try done.
      + exists oid, p. repeat split; try done.
        unfold dict_get. by rewrite Hprice.
      + split; [done |]. by apply (of_int_finite (quantity item)). }
  rewrite create_order_unfold.
  rewrite (for_each_resolved _ lines _ w d Hdb Hf Hlines), (fold_unpriced lines Hzero).
  cbv beta iota zeta. change (PyFloat.round2 0) with 0%float.
  erewrite create_document_run; [| exact Hdb | exact Hf].
  by eexists _, _.
Qed.

End UnpricedOrders.

(** ** The further properties on concrete runs *)

Lemma list_products_category_sublist_witness :
  exists (some all : list (option dict)) (w1 w2 : World),
    @list_products runtime (Some "Boxes") seeded_world = (Return some, w1) /\
    @list_products runtime None seeded_world = (Return all, w2) /\
    sublist some all /\
    length all = length (collection seeded_store "product") /\
    db w1 = db seeded_world /\ db w2 = db seeded_world.
Proof.
  apply (@list_products_category_sublist runtime "Boxes" seeded_world seeded_store);
    reflexivity.
Defined.

Lemma create_product_listed_witness :
  exists (new_id : string) (w1 w2 : World),
    @create_product runtime kraft_paper seeded_world = (Return {[ "id" := VStr new_id ]}, w1) /\
    @list_products runtime None w1 =
    (Return (map (fun x => @serialize_doc runtime (Some x)) (collection seeded_store "product") ++
             [Some (<["id" := VStr new_id]> (delete "_id" kraft_paper))]), w2) /\
    new_id = oid_hex (MkObjectId (next_oid seeded_store)).
Proof.
  apply (@create_product_listed runtime kraft_paper seeded_world seeded_store); reflexivity.
Defined.

Lemma create_order_failure_is_clean_witness :
  (exists (status : Z) (detail : string),
     HTTPException 404 "Product not found: 000000000000000000000009" =
     HTTPException status detail) /\
  db (@create_order runtime (order_of missing_second) seeded_world).2 = db seeded_world.
Proof.
  apply (@create_order_failure_is_clean runtime (order_of missing_second) seeded_world).
  vm_compute. reflexivity.
Defined.

Lemma create_order_without_store_witness :
  @create_order runtime (order_of [MkOrderItem "abc" 1]) no_store_world =
  (Raise (HTTPException 404 ("Product not found: " +:+ "abc")), no_store_world).
Proof.
  apply (@create_order_without_store runtime (order_of [MkOrderItem "abc" 1]) no_store_world
           (MkOrderItem "abc" 1) []); reflexivity.
Defined.




Lemma create_order_success_trace_witness :
  exists (d d' : Database) (lines : list (float * float)),
    db seeded_world = Some d /\
    db (@create_order runtime (order_of two_items) seeded_world).2 = Some d' /\
    calls (@create_order runtime (order_of two_items) seeded_world).2 =
    calls seeded_world ++ lookups two_items ++
      [InsertOne "order" (order_document (order_of two_items) (order_total lines))] /\
    length (lookups two_items) = length two_items /\
    collection d' "product" = collection d "product" /\
    returned ∅ (@create_order runtime (order_of two_items) seeded_world) !! "id" =
    Some (VStr (oid_hex (MkObjectId (next_oid d)))) /\
    last (collection d' "order") ≫= (fun x => x !! "_id") =
    Some (VOid (MkObjectId (next_oid d))).
Proof.
  apply (@create_order_success_trace runtime (order_of two_items) seeded_world).
  vm_compute. reflexivity.
Defined.

Lemma seed_products_fills_empty_witness :
  exists (w' : World) (d' : Database),
    @seed_products runtime fresh_world =
    (Return {[ "message" := VStr "Seeded sample products"; "count" := VInt 3 ]}, w') /\
    db w' = Some d' /\
    collection d' "product" =
    imap (fun i p => <["_id" := VOid (MkObjectId (next_oid empty_store + N.of_nat i))]> p)
         sample /\
    calls w' =
    calls fresh_world ++ CountDocuments "product" ∅ :: map (InsertOne "product") sample.
Proof.
  apply (@seed_products_fills_empty runtime fresh_world empty_store); reflexivity.
Defined.

Lemma create_product_then_order_witness :
  exists (new_id : string) (w1 w2 : World) (resp : dict),
    @create_product runtime kraft_paper seeded_world = (Return {[ "id" := VStr new_id ]}, w1) /\
    @create_order runtime
      (MkCreateOrderRequest {[ "customer_name" := VStr "Ada" ]} [MkOrderItem new_id 4]) w1 =
    (Return resp, w2) /\
    resp !! "total" = Some (VFloat (PyFloat.round2 (0 + 3.5 * 4))).
Proof.
  apply (@create_product_then_order runtime kraft_paper {[ "customer_name" := VStr "Ada" ]} 4
           seeded_world seeded_store 3.5%float 4%float);
    first [by vm_compute | vm_compute; reflexivity].
Defined.

Lemma create_order_unpriced_total_witness :
  exists (new_id : string) (w' : World),
    @create_order runtime (order_of [MkOrderItem "000000000000000000000007" 3]) unpriced_world =
    (Return {[ "id" := VStr new_id; "total" := VFloat 0 ]}, w').
Proof.
  apply (@create_order_unpriced_total runtime
           (order_of [MkOrderItem "000000000000000000000007" 3]) unpriced_world
           (default empty_store (db unpriced_world)));
    [reflexivity | reflexivity |].
  constructor; [| constructor].
  exists (MkObjectId 7), {[ "_id" := VOid (MkObjectId 7); "title" := VStr "Loose fill" ]},
         3%float.
  repeat split; first [by vm_compute | vm_compute; reflexivity].
Defined.
